(** * internal/interaction/ws_conn.go: the WsConn connection manager

    A shallow embedding of [WsConn] and its methods, and the properties of
    the reconnection protocol, of the outbound framing and of the error
    classification helpers.

    Conventions.
    - Go's [int] and [int32] values are [Z]; the one narrowing conversion
      of the file, [int32(httpResp.StatusCode)], is written out
      ([Go.int32]).
    - Go strings are byte strings: [string]; [[]byte] is [list byte].
    - A Go [error] is an interface value that may be nil: [option error];
      only its description ([Error]) is ever inspected.
    - Every method body runs inside [stateMutex.Lock()] /
      [defer stateMutex.Unlock()], so a method is one transition of the
      manager; the calls it makes on its collaborators (listener,
      transport, command channel) are recorded, in order, in a call log.
    - A run-time panic (a failed type assertion, a nil error dereferenced)
      is an outcome of its own. *)

From Stdlib Require Import ZArith List String Ascii Bool Lia.
From Stdlib Require Import Init.Byte Numbers.DecimalString.
Import ListNotations.

Local Open Scope string_scope.
Local Open Scope Z_scope.

(** ** The parts of the Go language and of its standard library in use *)

Module Go.

(** What a call does: it returns, or it panics. *)
Inductive Outcome (A : Type) : Type :=
| Returns (a : A)
| Panics (reason : string).
Arguments Returns {A} a.
Arguments Panics {A} reason.

(** [errors.New(text)]; [Error] is the method [err.Error()]. *)
Inductive error : Type := errors_New (text : string).

Definition Error (e : error) : string :=
  match e with errors_New text => text end.

(** [int32(x)] for [x] an [int]: the low 32 bits, read as signed. *)
Definition int32 (x : Z) : Z := (x + 2 ^ 31) mod 2 ^ 32 - 2 ^ 31.
#[global] Arguments int32 : simpl never.

(** [%d] of [fmt.Sprintf], and [strconv.FormatInt(_, 10)]. *)
Definition FormatInt (x : Z) : string := NilZero.string_of_int (Z.to_int x).
#[global] Arguments FormatInt : simpl never.

(** [len(data)] *)
Definition len {A : Type} (data : list A) : Z := Z.of_nat (List.length data).

(** [strings.HasPrefix(s, prefix)] *)
Fixpoint HasPrefix (s prefix : string) {struct prefix} : bool :=
  match prefix with
  | EmptyString => true
  | String p prefix' =>
      match s with
      | EmptyString => false
      | String c s' => Ascii.eqb c p && HasPrefix s' prefix'
      end
  end.

(** [strings.Contains(s, substr)]: [substr] starts at some offset of
    [s]. *)
Fixpoint Contains (s substr : string) : bool :=
  HasPrefix s substr ||
  match s with
  | EmptyString => false
  | String _ s' => Contains s' substr
  end.

End Go.

(** ** Package [interaction] *)

Module Interaction.
Import Go.

Set Implicit Arguments.
Set Contextual Implicit.
Set Maximal Implicit Insertion.

(** *** Collaborators, at their interface *)

(** [http.Header] as the map literal builds it. *)
Definition http_Header : Type := list (string * list string).

(** [*http.Response], as far as [ReConn] reads it: [StatusCode] and
    [Header.Get]. *)
Record http_Response : Type := {
  StatusCode : Z;
  Header_Get : string -> string
}.

(** [context.Context]: [ctx.Value("operationID").(string)] yields the
    string when the context carries one, and panics otherwise. *)
Record Context : Type := { operationID : option string }.

(** gorilla/websocket frame types. *)
Definition websocket_BinaryMessage : Z := 2.
Definition websocket_PingMessage : Z := 9.

(** [const writeTimeoutSeconds = 30] *)
Definition writeTimeoutSeconds : Z := 30.

(** A [chan common.Cmd2Value], by its identity. *)
Definition Chan : Type := nat.

(** The interface [LongConn], over the state [C] of the object that
    implements it: a method takes the object and gives it back with
    what the call returns. *)
Module LongConn.
Class t (C : Type) : Type := {
  Close : C -> C * option error;
  WriteMessage : Z -> list byte -> C -> C * option error;
  SetReadTimeout : Z -> C -> C * option error;
  SetWriteTimeout : Z -> C -> C * option error;
  Dial : string -> http_Header -> C -> C * (option http_Response * option error);
  IsNil : C -> bool
}.
End LongConn.

(** The constants of package [constant] that this file names; their
    values are declared outside it. The [ErrToken...] fields are the
    [ErrCode] of the error of that name. *)
Record Constants : Type := {
  ErrTokenExpired : Z;
  ErrTokenInvalid : Z;
  ErrTokenMalformed : Z;
  ErrTokenNotValidYet : Z;
  ErrTokenUnknown : Z;
  ErrTokenDifferentPlatformID : Z;
  ErrTokenDifferentUserID : Z;
  ErrTokenKicked : Z;
  TokenFailedKickedOffline : Z;
  LoginFailed : Z;
  LoginSuccess : Z;
  MaxTotalMsgLen : Z;
  MsgSyncBegin : Z;
  MsgSyncFailed : Z
}.

(** [sdk_struct.SvrConf], as far as [ReConn] reads it. *)
Record IMConfig : Type := { WsAddr : string; Platform : Z }.

Section WsConn.

(** [GeneralWsReq] and the element type of [MsgList] are opaque. *)
Variables GeneralWsReq MsgData : Type.

Variable C : Type.
Context `{LongConn.t C}.

Variable constant : Constants.
Variable SvrConf : IMConfig.

(** [utils.Wrap(err, message)]: declared outside this file. *)
Variable Wrap : option error -> string -> option error.

(** [utils.IntToString(i)] *)
Definition IntToString (i : Z) : string := FormatInt i.

(** The interfaces [Encoder] and [Compressor]. *)
Record Encoder : Type := { Encode : GeneralWsReq -> list byte * option error }.
Record Compressor : Type := { Compress : list byte -> list byte * option error }.

(** [sdk_struct.CmdNewMsgComeToConversation] *)
Record CmdNewMsgComeToConversation : Type := {
  MsgList : list MsgData;
  OperationID : string;
  SyncFlag : Z
}.

(** A call made on a collaborator: a callback of the listener
    ([open_im_sdk_callback.OnConnListener]), a method of the
    transport that acts on the connection, or a send on a channel. *)
Inductive Call : Type :=
| OnConnecting
| OnConnectSuccess
| OnConnectFailed (errCode : Z) (errMsg : string)
| OnUserTokenExpired
| ConnClose
| ConnDial (url : string) (header : http_Header)
| ConnSetWriteTimeout (timeout : Z)
| ConnSetReadTimeout (timeout : Z)
| ConnWriteMessage (messageType : Z) (message : list byte)
| ChanSend (ch : Chan) (value : CmdNewMsgComeToConversation).

(** *** [type WsConn struct]

    [stateMutex] is the critical section itself and [listener] is
    the receiver of the callbacks in [Call]; neither holds data. A
    nil [ConversationCh] is [None]. *)
Record WsConn : Type := {
  conn : C;
  loginStatus : Z;
  encoder : Encoder;
  compressor : Compressor;
  token : string;
  loginUserID : string;
  IsCompression : bool;
  ConversationCh : option Chan;
  tokenErrCode : Z
}.

Definition with_conn (c : C) (u : WsConn) : WsConn :=
  {| conn := c; loginStatus := loginStatus u; encoder := encoder u;
     compressor := compressor u; token := token u;
     loginUserID := loginUserID u; IsCompression := IsCompression u;
     ConversationCh := ConversationCh u; tokenErrCode := tokenErrCode u |}.

Definition with_loginStatus (v : Z) (u : WsConn) : WsConn :=
  {| conn := conn u; loginStatus := v; encoder := encoder u;
     compressor := compressor u; token := token u;
     loginUserID := loginUserID u; IsCompression := IsCompression u;
     ConversationCh := ConversationCh u; tokenErrCode := tokenErrCode u |}.

Definition with_tokenErrCode (v : Z) (u : WsConn) : WsConn :=
  {| conn := conn u; loginStatus := loginStatus u; encoder := encoder u;
     compressor := compressor u; token := token u;
     loginUserID := loginUserID u; IsCompression := IsCompression u;
     ConversationCh := ConversationCh u; tokenErrCode := v |}.

(** The manager together with the calls made so far, oldest first. *)
Record State : Type := { this : WsConn; calls : list Call }.

(** *** The monad of the method bodies: state, and panics *)

Definition M (A : Type) : Type := State -> Outcome A * State.

Definition ret {A : Type} (a : A) : M A := fun s => (Returns a, s).

Definition bind {A B : Type} (m : M A) (k : A -> M B) : M B :=
  fun s =>
    match m s with
    | (Returns a, s') => k a s'
    | (Panics reason, s') => (Panics reason, s')
    end.

Definition panic {A : Type} (reason : string) : M A :=
  fun s => (Panics reason, s).

(** Read a field of [u]. *)
Definition load {A : Type} (field : WsConn -> A) : M A :=
  fun s => (Returns (field (this s)), s).

(** Assign a field of [u]. *)
Definition store (assign : WsConn -> WsConn) : M unit :=
  fun s => (Returns tt, {| this := assign (this s); calls := calls s |}).

(** Make a call on a collaborator that returns nothing of use. *)
Definition call (c : Call) : M unit :=
  fun s => (Returns tt, {| this := this s; calls := calls s ++ [c] |}).

(** Call a method of [u.conn]. *)
Definition on_conn {A : Type} (c : Call) (method : C -> C * A) : M A :=
  fun s =>
    let (conn', a) := method (conn (this s)) in
    (Returns a, {| this := with_conn conn' (this s); calls := calls s ++ [c] |}).

Declare Scope go_scope.
Delimit Scope go_scope with go.
Notation "x <- m ;; k" := (bind m (fun x => k))
  (at level 61, m at next level, right associativity) : go_scope.
Notation "m ;; k" := (bind m (fun _ => k))
  (at level 61, right associativity) : go_scope.
Local Open Scope go_scope.

(** Modelled from the spec: [common.TriggerCmdSuperGroupMsgCome] is
    declared outside this file; the spec has it push the signal to
    the Command Channel. Its result is dropped by its one caller. *)
Definition TriggerCmdSuperGroupMsgCome
    (msg : CmdNewMsgComeToConversation) (conversationCh : Chan) : M unit :=
  call (ChanSend conversationCh msg).

(** *** The methods of [*WsConn] *)

Definition IsInterruptReconnection (u : WsConn) : bool :=
  if negb (tokenErrCode u =? 0) then true else false.

Definition CloseConn : M (option error) :=
  isNil <- load (fun u => LongConn.IsNil (conn u)) ;;
  if negb isNil then
    err <- on_conn ConnClose LongConn.Close ;;
    (* u.conn = nil is commented out in the source *)
    ret (Wrap err "")
  else
    ret None.

Definition LoginStatus : M Z := load loginStatus.

Definition SetLoginStatus (loginState : Z) : M unit :=
  store (with_loginStatus loginState).

Definition SetWriteTimeout (timeout : Z) : M (option error) :=
  on_conn (ConnSetWriteTimeout timeout) (LongConn.SetWriteTimeout timeout).

Definition SetReadTimeout (timeout : Z) : M (option error) :=
  on_conn (ConnSetReadTimeout timeout) (LongConn.SetReadTimeout timeout).

Definition ping : list byte :=
  list_byte_of_string "try ping".

Definition SendPingMsg : M (option error) :=
  isNil <- load (fun u => LongConn.IsNil (conn u)) ;;
  if isNil then
    ret (Wrap (Some (errors_New "conn == nil")) "")
  else
    err <- SetWriteTimeout writeTimeoutSeconds ;;
    match err with
    | Some _ => ret (Wrap err "SetWriteDeadline failed")
    | None =>
        err <- on_conn (ConnWriteMessage websocket_PingMessage ping)
                 (LongConn.WriteMessage websocket_PingMessage ping) ;;
        match err with
        | Some _ => ret (Wrap err "WriteMessage failed")
        | None => ret None
        end
    end.

(** [log.Debug] writes to the log only and is left out. *)
Definition writeBinaryMsg (msg : GeneralWsReq) : M (option error) :=
  enc <- load encoder ;;
  let (data, err) := Encode enc msg in
  match err with
  | Some _ => ret (Wrap err "Encode error")
  | None =>
      isNil <- load (fun u => LongConn.IsNil (conn u)) ;;
      if negb isNil then
        err <- SetWriteTimeout writeTimeoutSeconds ;;
        match err with
        | Some _ => ret (Wrap err "SetWriteTimeout")
        | None =>
            if len data >? MaxTotalMsgLen constant then
              ret (Wrap (Some (errors_New "msg too long")) (IntToString (len data)))
            else
              isCompression <- load IsCompression ;;
              if isCompression then
                cmp <- load compressor ;;
                let (compressData, err) := Compress cmp data in
                match err with
                | Some _ => ret (Wrap err "")
                | None =>
                    err <- on_conn (ConnWriteMessage websocket_BinaryMessage compressData)
                             (LongConn.WriteMessage websocket_BinaryMessage compressData) ;;
                    ret (Wrap err "")
                end
              else
                err <- on_conn (ConnWriteMessage websocket_BinaryMessage data)
                         (LongConn.WriteMessage websocket_BinaryMessage data) ;;
                ret (Wrap err "")
        end
      else
        ret (Wrap (Some (errors_New "conn==nil")) "")
  end.

(** [err.Error()] on a nil [err] panics. *)
Definition describe (err : option error) : Outcome string :=
  match err with
  | Some e => Returns (Error e)
  | None => Panics "invalid memory address or nil pointer dereference"
  end.

Definition IsReadTimeout (err : option error) : Outcome bool :=
  match describe err with
  | Returns text => Returns (if Contains text "timeout" then true else false)
  | Panics reason => Panics reason
  end.

Definition IsWriteTimeout (err : option error) : Outcome bool :=
  match describe err with
  | Returns text => Returns (if Contains text "timeout" then true else false)
  | Panics reason => Panics reason
  end.

Definition IsFatalError (err : option error) : Outcome bool :=
  match describe err with
  | Returns text => Returns (if Contains text "timeout" then false else true)
  | Panics reason => Panics reason
  end.

(** [ctx.Value("operationID").(string)] *)
Definition Value_operationID (ctx : Context) : M string :=
  match operationID ctx with
  | Some id => ret id
  | None => panic "interface conversion: interface {} is nil, not string"
  end.

(** The [fmt.Sprintf] of [ReConn]. *)
Definition dialURL (u : WsConn) (operationID : string) : string :=
  WsAddr SvrConf ++ "?sendID=" ++ loginUserID u ++ "&token=" ++ token u
    ++ "&platformID=" ++ FormatInt (Platform SvrConf)
    ++ "&operationID=" ++ operationID.

(** [var header http.Header], set when [u.IsCompression]. *)
Definition dialHeader (u : WsConn) : http_Header :=
  if IsCompression u then [("compression", ["gzip"])] else [].

Definition syncSignal (operationID : string) (syncFlag : Z)
  : CmdNewMsgComeToConversation :=
  {| MsgList := []; OperationID := operationID; SyncFlag := syncFlag |}.

(** [ctx.Value("operationID").(string)] is evaluated first for [url]
    and gives the same string at its later occurrences. *)
Definition ReConn (ctx : Context) : M (bool * bool * option error) :=
  store (with_tokenErrCode 0) ;;
  isNil <- load (fun u => LongConn.IsNil (conn u)) ;;
  (if negb isNil then _ <- on_conn ConnClose LongConn.Close ;; ret tt else ret tt) ;;
  status <- load loginStatus ;;
  if status =? TokenFailedKickedOffline constant then
    ret (false, false,
         Wrap (Some (errors_New "don't re conn")) "TokenFailedKickedOffline")
  else
    call OnConnecting ;;
    operationID <- Value_operationID ctx ;;
    url <- load (fun u => dialURL u operationID) ;;
    header <- load dialHeader ;;
    dialled <- on_conn (ConnDial url header) (LongConn.Dial url header) ;;
    let (httpResp, err) := dialled in
    match err with
    | Some err =>
        store (with_loginStatus (LoginFailed constant)) ;;
        match httpResp with
        | Some httpResp =>
            let errMsg := Header_Get httpResp "ws_err_msg"
                            ++ " operationID " ++ operationID ++ Error err in
            let code := int32 (StatusCode httpResp) in
            call (OnConnectFailed code errMsg) ;;
            if code =? ErrTokenExpired constant then
              call OnUserTokenExpired ;;
              store (with_tokenErrCode (ErrTokenExpired constant)) ;;
              ret (false, false, Wrap (Some err) errMsg)
            else if code =? ErrTokenInvalid constant then
              store (with_tokenErrCode (ErrTokenInvalid constant)) ;;
              ret (false, false, Wrap (Some err) errMsg)
            else if code =? ErrTokenMalformed constant then
              store (with_tokenErrCode (ErrTokenMalformed constant)) ;;
              ret (false, false, Wrap (Some err) errMsg)
            else if code =? ErrTokenNotValidYet constant then
              store (with_tokenErrCode (ErrTokenNotValidYet constant)) ;;
              ret (false, false, Wrap (Some err) errMsg)
            else if code =? ErrTokenUnknown constant then
              store (with_tokenErrCode (ErrTokenUnknown constant)) ;;
              ret (false, false, Wrap (Some err) errMsg)
            else if code =? ErrTokenDifferentPlatformID constant then
              store (with_tokenErrCode (ErrTokenDifferentPlatformID constant)) ;;
              ret (false, false, Wrap (Some err) errMsg)
            else if code =? ErrTokenDifferentUserID constant then
              store (with_tokenErrCode (ErrTokenDifferentUserID constant)) ;;
              ret (false, false, Wrap (Some err) errMsg)
            else if code =? ErrTokenKicked constant then
              store (with_tokenErrCode (ErrTokenKicked constant)) ;;
              ret (false, true, Wrap (Some err) errMsg)
            else
              let errMsg := Error err ++ " operationID " ++ operationID in
              call (OnConnectFailed 1001 errMsg) ;;
              ret (true, false, Wrap (Some err) errMsg)
        | None =>
            let errMsg := Error err ++ " operationID " ++ operationID in
            call (OnConnectFailed 1001 errMsg) ;;
            ch <- load ConversationCh ;;
            (match ch with
             | Some ch =>
                 TriggerCmdSuperGroupMsgCome
                   (syncSignal operationID (MsgSyncBegin constant)) ch ;;
                 TriggerCmdSuperGroupMsgCome
                   (syncSignal operationID (MsgSyncFailed constant)) ch
             | None => ret tt
             end) ;;
            ret (true, false, Wrap (Some err) errMsg)
        end
    | None =>
        call OnConnectSuccess ;;
        store (with_loginStatus (LoginSuccess constant)) ;;
        ret (true, false, None)
    end.


(** *** Vocabulary for the statements *)

(** The description of [e] carries the timeout marker. *)
Definition marked (e : error) : Prop :=
  exists before after, Error e = before ++ "timeout" ++ after.

(** The transport as [ReConn] dials on it: the connection held
    before the call, if any, has been closed. *)
Definition closeStale (u : WsConn) : C :=
  if LongConn.IsNil (conn u) then conn u else fst (LongConn.Close (conn u)).

(** The call that closing it makes. *)
Definition closing (u : WsConn) : list Call :=
  if LongConn.IsNil (conn u) then [] else [ConnClose].

(** The dial that [ReConn] makes for the request [operationID], and
    what the transport answers. *)
Definition dial (u : WsConn) (operationID : string)
  : C * (option http_Response * option error) :=
  LongConn.Dial (dialURL u operationID) (dialHeader u) (closeStale u).

(** The manager as [ReConn] has it when it reads [loginStatus]: the
    token error code reset, the old connection closed. *)
Definition prepared (u : WsConn) : WsConn :=
  with_conn (closeStale u) (with_tokenErrCode 0 u).

(** What the server-rejected paths share: the diagnostic message and
    the state and the calls up to the first [OnConnectFailed]. *)
Definition rejectionMsg (id : string) (resp : http_Response) (err : error) : string :=
  Header_Get resp "ws_err_msg" ++ " operationID " ++ id ++ Error err.

Definition rejectedCalls (u : WsConn) (id : string) (resp : http_Response)
    (err : error) : list Call :=
  closing u
    ++ [OnConnecting;
        ConnDial (dialURL u id) (dialHeader u);
        OnConnectFailed (int32 (StatusCode resp)) (rejectionMsg id resp err)].

(** [ReConn] gets to dial (no [TokenFailedKickedOffline], an
    [operationID] in [ctx]) and the dial fails with no response. *)
Definition DialUnanswered (ctx : Context) (u : WsConn)
    (operationID : string) (err : error) : Prop :=
  loginStatus u <> TokenFailedKickedOffline constant /\
  Interaction.operationID ctx = Some operationID /\
  snd (dial u operationID) = (None, Some err).

(** The signals pushed among some calls, with their channel. *)
Fixpoint pushes (cs : list Call) : list (Chan * CmdNewMsgComeToConversation) :=
  match cs with
  | [] => []
  | ChanSend ch value :: cs' => (ch, value) :: pushes cs'
  | _ :: cs' => pushes cs'
  end.

(** The frames written among some calls, with their type. *)
Fixpoint frames (cs : list Call) : list (Z * list byte) :=
  match cs with
  | [] => []
  | ConnWriteMessage messageType message :: cs' => (messageType, message) :: frames cs'
  | _ :: cs' => frames cs'
  end.

(** The eight status codes that [ReConn] tells apart, in the order of
    its [switch]: seven token failures, then the kick. *)
Definition tokenFailures : list Z :=
  [ErrTokenExpired constant; ErrTokenInvalid constant;
   ErrTokenMalformed constant; ErrTokenNotValidYet constant;
   ErrTokenUnknown constant; ErrTokenDifferentPlatformID constant;
   ErrTokenDifferentUserID constant].

Definition recognized : list Z := tokenFailures ++ [ErrTokenKicked constant].

(** The dials among some calls, with their target and header. *)
Fixpoint dials (cs : list Call) : list (string * http_Header) :=
  match cs with
  | [] => []
  | ConnDial url header :: cs' => (url, header) :: dials cs'
  | _ :: cs' => dials cs'
  end.

(** The callbacks of the listener among some calls. *)
Fixpoint notifications (cs : list Call) : list Call :=
  match cs with
  | [] => []
  | OnConnecting :: cs' => OnConnecting :: notifications cs'
  | OnConnectSuccess :: cs' => OnConnectSuccess :: notifications cs'
  | OnConnectFailed errCode errMsg :: cs' =>
      OnConnectFailed errCode errMsg :: notifications cs'
  | OnUserTokenExpired :: cs' => OnUserTokenExpired :: notifications cs'
  | _ :: cs' => notifications cs'
  end.

End WsConn.
End Interaction.

(** ** Test doubles

    A transport that answers from a script, and the smallest encoder,
    compressor and error wrapper, to run the methods on. *)

Module Double.
Import Go Interaction.

(** A transport with scripted replies. [held] says that it holds a
    connection object: a dial that succeeds stores one, and [Close]
    closes it without dropping it. *)
Record Transport : Type := {
  held : bool;
  dialReply : option http_Response * option error;
  closeReply : option error;
  deadlineReply : option error;
  writeReply : option error
}.

Definition hold (t : Transport) : Transport :=
  {| held := true; dialReply := dialReply t; closeReply := closeReply t;
     deadlineReply := deadlineReply t; writeReply := writeReply t |}.

#[export] Instance Transport_LongConn : LongConn.t Transport := {|
  LongConn.Close t := (t, closeReply t);
  LongConn.WriteMessage _ _ t := (t, writeReply t);
  LongConn.SetReadTimeout _ t := (t, deadlineReply t);
  LongConn.SetWriteTimeout _ t := (t, deadlineReply t);
  LongConn.Dial _ _ t :=
    (match snd (dialReply t) with None => hold t | Some _ => t end, dialReply t);
  LongConn.IsNil t := negb (held t)
|}.

(** A transport that holds a connection ([held]) or none, and whose
    next dial is answered with [reply]; every other call succeeds. *)
Definition transport (held : bool)
    (reply : option http_Response * option error) : Transport :=
  {| held := held; dialReply := reply; closeReply := None;
     deadlineReply := None; writeReply := None |}.

(** Values for the constants: the token error codes are pairwise
    distinct, and so are the login states; the frame limit is kept
    small. *)
Definition constants : Constants :=
  {| ErrTokenExpired := 701;
     ErrTokenInvalid := 702;
     ErrTokenMalformed := 703;
     ErrTokenNotValidYet := 704;
     ErrTokenUnknown := 705;
     ErrTokenDifferentPlatformID := 707;
     ErrTokenDifferentUserID := 708;
     ErrTokenKicked := 706;
     TokenFailedKickedOffline := 706;
     LoginFailed := 103;
     LoginSuccess := 101;
     MaxTotalMsgLen := 4;
     MsgSyncBegin := 1001;
     MsgSyncFailed := 1004 |}.

Definition svrConf : IMConfig :=
  {| WsAddr := "ws://im:10001"; Platform := 5 |}.

(** A wrapper in the manner of [errors.Wrap]: nil stays nil, and an
    error gets the message in front of its description. *)
Definition wrap (err : option error) (message : string) : option error :=
  match err with
  | Some e => Some (errors_New (message ++ ": " ++ Error e))
  | None => None
  end.

(** Requests are their own encoding; compression puts a marker byte in
    front. *)
Definition plain : Encoder (list byte) := {| Encode := fun msg => (msg, None) |}.

Definition marker : Compressor :=
  {| Compress := fun data => (Byte.x1f :: data, None) |}.

Definition manager (conn : Transport) (loginStatus : Z) (isCompression : bool)
    (conversationCh : option Chan) (tokenErrCode : Z)
  : WsConn (list byte) Transport :=
  {| conn := conn; loginStatus := loginStatus; encoder := plain;
     compressor := marker; token := "tok"; loginUserID := "u1";
     IsCompression := isCompression; ConversationCh := conversationCh;
     tokenErrCode := tokenErrCode |}.

(** A manager with an empty call log. *)
Definition fresh (u : WsConn (list byte) Transport) : State (list byte) unit Transport :=
  {| this := u; calls := [] |}.

Definition ctx1 : Context := {| operationID := Some "op1" |}.

(** A rejection by the server with the given status code. *)
Definition rejected (statusCode : Z) : option http_Response * option error :=
  (Some {| StatusCode := statusCode; Header_Get := fun _ => "args err" |},
   Some (errors_New "bad handshake")).

Definition unreachable : option http_Response * option error :=
  (None, Some (errors_New "dial tcp: i/o timeout")).

(** A request of two bytes, and one of five, over the frame limit. *)
Definition short : list byte := [Byte.x68; Byte.x69].

Definition long : list byte := [Byte.x68; Byte.x65; Byte.x6c; Byte.x6c; Byte.x6f].

(** A transport that holds a connection and fails to arm a deadline. *)
Definition stuck : Transport :=
  {| held := true; dialReply := (None, None); closeReply := None;
     deadlineReply := Some (errors_New "use of closed network connection");
     writeReply := None |}.

(** An encoder that fails, and a manager that holds a connection and
    encodes with it. *)
Definition garbled : Encoder (list byte) :=
  {| Encode := fun _ => ([], Some (errors_New "gob: type not registered")) |}.

Definition mute : WsConn (list byte) Transport :=
  {| conn := transport true (None, None); loginStatus := 101;
     encoder := garbled; compressor := marker; token := "tok";
     loginUserID := "u1"; IsCompression := false; ConversationCh := None;
     tokenErrCode := 0 |}.

End Double.

(** * Properties *)

Import Go Interaction.

(** ** Strings and integers *)

Lemma HasPrefix_spec (s prefix : string) :
  HasPrefix s prefix = true <-> exists rest, s = prefix ++ rest.
Proof.
  revert s; induction prefix as [|p prefix IH]; intros s; simpl.
  - split; [intros _; now exists s | reflexivity].
  - destruct s as [|c s].
    + split; [discriminate | intros [rest E]; discriminate].
    + rewrite andb_true_iff, Ascii.eqb_eq, IH. split.
      * intros [-> [rest ->]]. now exists rest.
      * intros [rest E]. injection E as -> ->. split; [reflexivity | now exists rest].
Qed.

(** [strings.Contains] decides the occurrence of [substr] inside [s]. *)
Lemma Contains_spec (s substr : string) :
  Contains s substr = true <->
  exists before after, s = before ++ substr ++ after.
Proof.
  induction s as [|c s IH].
  - simpl. rewrite orb_false_r, HasPrefix_spec. split.
    + intros [rest E]. now exists "", rest.
    + intros [[|b before] [after E]]; [now exists after | discriminate].
  - cbn [Contains]. rewrite orb_true_iff, HasPrefix_spec, IH. split.
    + intros [[rest E] | [before [after E]]].
      * now exists "", rest.
      * exists (String c before), after. simpl. now rewrite E.
    + intros [[|b before] [after E]].
      * left. now exists after.
      * right. simpl in E. injection E as _ E. now exists before, after.
Qed.

(** The narrowing to [int32] leaves a value of that range as it is, so
    an HTTP status code is classified as itself. *)
Lemma int32_in_range (x : Z) : - 2 ^ 31 <= x < 2 ^ 31 -> int32 x = x.
Proof.
  intros R. unfold int32. rewrite Z.mod_small; lia.
Qed.

Lemma int32_range (x : Z) : - 2 ^ 31 <= int32 x < 2 ^ 31.
Proof.
  unfold int32. pose proof (Z.mod_pos_bound (x + 2 ^ 31) (2 ^ 32)). lia.
Qed.

(** ** Error classification helpers *)

(** C8. On every error, [IsReadTimeout] and [IsWriteTimeout] return
    true exactly when its description contains ["timeout"], and
    [IsFatalError] returns true exactly when it does not; so the first
    two agree, and the third returns the negation of what they return. *)
Theorem timeout_classification (e : error) :
  (IsReadTimeout (Some e) = Returns true <-> marked e) /\
  (IsWriteTimeout (Some e) = Returns true <-> marked e) /\
  (IsFatalError (Some e) = Returns true <-> ~ marked e) /\
  IsReadTimeout (Some e) = IsWriteTimeout (Some e) /\
  exists b, IsReadTimeout (Some e) = Returns b /\
            IsFatalError (Some e) = Returns (negb b).
Proof.
  unfold IsReadTimeout, IsWriteTimeout, IsFatalError, describe, marked.
  rewrite <- (Contains_spec (Error e) "timeout").
  destruct (Contains (Error e) "timeout").
  - repeat split; try congruence. now exists true.
  - repeat split; try congruence; try discriminate. now exists false.
Qed.

(** C8 at work: a read timeout, and a close that is fatal. *)
Lemma timeout_classification_witness :
  IsReadTimeout (Some (errors_New "read tcp: i/o timeout")) = Returns true /\
  IsFatalError (Some (errors_New "websocket: close 1006")) = Returns true.
Proof.
  split.
  - apply (proj1 (timeout_classification _)).
    exists "read tcp: i/o ", "". reflexivity.
  - apply (proj2 (proj1 (proj2 (proj2 (timeout_classification _))))).
    intros F. apply (proj2 (Contains_spec _ _)) in F. discriminate F.
Defined.

(** ** The reconnection protocol, path by path *)

Section Reconnection.

Variables GeneralWsReq MsgData C : Type.
Context `{LongConn.t C}.
Variable constant : Constants.
Variable SvrConf : IMConfig.
Variable Wrap : option error -> string -> option error.

Implicit Types (ctx : Context) (s : State GeneralWsReq MsgData C).
Implicit Types (u : WsConn GeneralWsReq C) (err : error).

Ltac run_ReConn :=
  unfold ReConn, bind, store, load, call, on_conn, ret, panic,
    Value_operationID, TriggerCmdSuperGroupMsgCome.

Ltac open_state s :=
  let u := fresh "u" in let log := fresh "log" in
  destruct s as [u log]; destruct u; cbn in *.

(** The guard on [TokenFailedKickedOffline]: nothing but the closing
    of the old connection happens. *)
Lemma ReConn_refused ctx s :
  loginStatus (this s) = TokenFailedKickedOffline constant ->
  ReConn constant SvrConf Wrap ctx s =
    (Returns (false, false,
              Wrap (Some (errors_New "don't re conn")) "TokenFailedKickedOffline"),
     {| this := prepared (this s); calls := calls s ++ closing (this s) |}).
Proof.
  intros K. run_ReConn. unfold prepared, closeStale, closing.
  open_state s. subst.
  destruct (LongConn.IsNil conn0); cbn.
  - rewrite Z.eqb_refl, app_nil_r. reflexivity.
  - destruct (LongConn.Close conn0) as [c1 e1]. cbn. rewrite Z.eqb_refl. reflexivity.
Qed.

(** From the guard on, for a manager that is not kicked offline. *)
Ltac pass_guard K conn0 :=
  unfold prepared, dial, closeStale, closing, dialURL, dialHeader in *; cbn in *;
  apply Z.eqb_neq in K;
  destruct (LongConn.IsNil conn0); cbn in *;
  [ | destruct (LongConn.Close conn0) as [c1 e1]; cbn in * ];
  rewrite K; cbn.

(** A context without an [operationID]: the type assertion panics
    after [OnConnecting], before any dial. *)
Lemma ReConn_no_operationID ctx s :
  loginStatus (this s) <> TokenFailedKickedOffline constant ->
  operationID ctx = None ->
  exists reason,
    ReConn constant SvrConf Wrap ctx s =
      (Panics reason,
       {| this := prepared (this s);
          calls := calls s ++ closing (this s) ++ [OnConnecting] |}).
Proof.
  intros K N. run_ReConn. open_state s. rewrite N.
  pass_guard K conn0; eexists; try rewrite <- app_assoc; reflexivity.
Qed.

(** The dial succeeds. *)
Lemma ReConn_connected ctx s id c' resp :
  loginStatus (this s) <> TokenFailedKickedOffline constant ->
  operationID ctx = Some id ->
  dial SvrConf (this s) id = (c', (resp, None)) ->
  ReConn constant SvrConf Wrap ctx s =
    (Returns (true, false, None),
     {| this := with_loginStatus (LoginSuccess constant)
                  (with_conn c' (prepared (this s)));
        calls := calls s ++ closing (this s)
                   ++ [OnConnecting;
                       ConnDial (dialURL SvrConf (this s) id) (dialHeader (this s));
                       OnConnectSuccess] |}).
Proof.
  intros K I D. run_ReConn. open_state s. rewrite I.
  pass_guard K conn0; rewrite D; cbn; repeat rewrite <- app_assoc; reflexivity.
Qed.

(** The dial fails and no response came back. *)
Lemma ReConn_unanswered ctx s id c' err :
  loginStatus (this s) <> TokenFailedKickedOffline constant ->
  operationID ctx = Some id ->
  dial SvrConf (this s) id = (c', (None, Some err)) ->
  let errMsg := Error err ++ " operationID " ++ id in
  ReConn constant SvrConf Wrap ctx s =
    (Returns (true, false, Wrap (Some err) errMsg),
     {| this := with_loginStatus (LoginFailed constant)
                  (with_conn c' (prepared (this s)));
        calls := calls s ++ closing (this s)
                   ++ [OnConnecting;
                       ConnDial (dialURL SvrConf (this s) id) (dialHeader (this s));
                       OnConnectFailed 1001 errMsg]
                   ++ match ConversationCh (this s) with
                      | Some ch =>
                          [ChanSend ch (syncSignal id (MsgSyncBegin constant));
                           ChanSend ch (syncSignal id (MsgSyncFailed constant))]
                      | None => []
                      end |}).
Proof.
  intros K I D. run_ReConn. open_state s. rewrite I.
  pass_guard K conn0; rewrite D; cbn;
    destruct ConversationCh0; cbn; repeat rewrite <- app_assoc; reflexivity.
Qed.

(** Go down the [switch] on the status code, case by case. *)
Ltac walk_switch :=
  repeat match goal with
         | |- context [Z.eqb ?a ?b] => destruct (Z.eqb_spec a b)
         end.

(** Both sides are the same state, up to computation and the
    bracketing of the call log. *)
Ltac same_state :=
  unfold with_tokenErrCode, with_loginStatus, with_conn; cbn;
  rewrite <- ?app_assoc; cbn; rewrite ?app_nil_r; reflexivity.

(** The server rejects the dial with one of the seven token failure
    codes. *)
Lemma ReConn_rejected_token ctx s id c' resp err :
  loginStatus (this s) <> TokenFailedKickedOffline constant ->
  operationID ctx = Some id ->
  dial SvrConf (this s) id = (c', (Some resp, Some err)) ->
  let code := int32 (StatusCode resp) in
  In code (tokenFailures constant) ->
  ReConn constant SvrConf Wrap ctx s =
    (Returns (false, false, Wrap (Some err) (rejectionMsg id resp err)),
     {| this := with_tokenErrCode code
                  (with_loginStatus (LoginFailed constant)
                     (with_conn c' (prepared (this s))));
        calls := calls s ++ rejectedCalls SvrConf (this s) id resp err
                   ++ (if code =? ErrTokenExpired constant
                       then [OnUserTokenExpired] else []) |}).
Proof.
  intros K I D code IN. run_ReConn. unfold rejectedCalls, rejectionMsg.
  open_state s. rewrite I. unfold tokenFailures in IN. subst code.
  pass_guard K conn0; rewrite D; cbn;
    set (code := int32 (StatusCode resp)) in *; clearbody code;
    walk_switch; try (exfalso; intuition congruence);
    subst code; same_state.
Qed.

(** The server rejects the dial with the kick code, a code of its own
    among the eight. *)
Lemma ReConn_rejected_kicked ctx s id c' resp err :
  ~ In (ErrTokenKicked constant) (tokenFailures constant) ->
  loginStatus (this s) <> TokenFailedKickedOffline constant ->
  operationID ctx = Some id ->
  dial SvrConf (this s) id = (c', (Some resp, Some err)) ->
  int32 (StatusCode resp) = ErrTokenKicked constant ->
  ReConn constant SvrConf Wrap ctx s =
    (Returns (false, true, Wrap (Some err) (rejectionMsg id resp err)),
     {| this := with_tokenErrCode (ErrTokenKicked constant)
                  (with_loginStatus (LoginFailed constant)
                     (with_conn c' (prepared (this s))));
        calls := calls s ++ rejectedCalls SvrConf (this s) id resp err |}).
Proof.
  intros OWN K I D E. run_ReConn. unfold rejectedCalls, rejectionMsg.
  open_state s. rewrite I. unfold tokenFailures in OWN. cbn in OWN.
  pass_guard K conn0; rewrite D; cbn; rewrite E;
    walk_switch; try (exfalso; intuition congruence); same_state.
Qed.

(** The server rejects the dial with a code that is none of the
    eight. *)
Lemma ReConn_rejected_other ctx s id c' resp err :
  loginStatus (this s) <> TokenFailedKickedOffline constant ->
  operationID ctx = Some id ->
  dial SvrConf (this s) id = (c', (Some resp, Some err)) ->
  ~ In (int32 (StatusCode resp)) (recognized constant) ->
  let errMsg := Error err ++ " operationID " ++ id in
  ReConn constant SvrConf Wrap ctx s =
    (Returns (true, false, Wrap (Some err) errMsg),
     {| this := with_loginStatus (LoginFailed constant)
                  (with_conn c' (prepared (this s)));
        calls := calls s ++ rejectedCalls SvrConf (this s) id resp err
                   ++ [OnConnectFailed 1001 errMsg] |}).
Proof.
  intros K I D OUT. run_ReConn. unfold rejectedCalls, rejectionMsg.
  open_state s. rewrite I. unfold recognized, tokenFailures in OUT. cbn in OUT.
  pass_guard K conn0; rewrite D; cbn;
    set (code := int32 (StatusCode resp)) in *; clearbody code;
    walk_switch; try (exfalso; intuition congruence); same_state.
Qed.

(** Whatever the status code of a rejection, no signal is pushed. *)
Lemma ReConn_rejected_pushes ctx s id c' resp err :
  loginStatus (this s) <> TokenFailedKickedOffline constant ->
  operationID ctx = Some id ->
  dial SvrConf (this s) id = (c', (Some resp, Some err)) ->
  exists made : list (Call MsgData),
    calls (snd (ReConn constant SvrConf Wrap ctx s)) = (calls s ++ made)%list /\
    pushes made = [].
Proof.
  intros K I D. run_ReConn. open_state s. rewrite I.
  pass_guard K conn0; rewrite D; cbn; walk_switch; cbn;
    rewrite <- ?app_assoc; eexists; (split; [reflexivity | reflexivity]).
Qed.

Lemma pushes_app (l1 l2 : list (Call MsgData)) :
  pushes (l1 ++ l2) = (pushes l1 ++ pushes l2)%list.
Proof.
  induction l1 as [|c l1 IH]; [reflexivity|].
  destruct c; cbn; rewrite IH; reflexivity.
Qed.

Lemma pushes_closing u : pushes (closing (MsgData := MsgData) u) = [].
Proof.
  unfold closing. destruct (LongConn.IsNil (conn u)); reflexivity.
Qed.

(** ** The claims on [ReConn] *)

(** [utils.Wrap] gives an error when it is given one. *)
Hypothesis Wrap_error : forall err message, Wrap (Some err) message <> None.

Lemma Wrap_some err message : exists e, Wrap (Some err) message = Some e.
Proof.
  destruct (Wrap (Some err) message) as [e|] eqn:E.
  - now exists e.
  - now apply Wrap_error in E.
Qed.

(** C1. When the dial fails with a response of the server, [ReConn]
    classifies the status code, narrowed to [int32]. On each of the
    seven token failure codes it records that code in [tokenErrCode]
    and returns [(false, false, err)] with [err] not nil, and it calls
    [OnUserTokenExpired], once and last, exactly when the code is
    [ErrTokenExpired]. On the kick code, a code of its own, it records
    [ErrTokenKicked], returns [(false, true, err)] with [err] not nil,
    and makes no such call. *)
Theorem ReConn_classifies_token_failures ctx s id c' resp err :
  ~ In (ErrTokenKicked constant) (tokenFailures constant) ->
  loginStatus (this s) <> TokenFailedKickedOffline constant ->
  operationID ctx = Some id ->
  dial SvrConf (this s) id = (c', (Some resp, Some err)) ->
  let code := int32 (StatusCode resp) in
  let r := ReConn constant SvrConf Wrap ctx s in
  (In code (tokenFailures constant) ->
     (exists e, fst r = Returns (false, false, Some e)) /\
     tokenErrCode (this (snd r)) = code /\
     calls (snd r) =
       (calls s ++ rejectedCalls SvrConf (this s) id resp err
          ++ (if code =? ErrTokenExpired constant
              then [OnUserTokenExpired] else []))%list)
  /\
  (code = ErrTokenKicked constant ->
     (exists e, fst r = Returns (false, true, Some e)) /\
     tokenErrCode (this (snd r)) = ErrTokenKicked constant /\
     calls (snd r) =
       (calls s ++ rejectedCalls SvrConf (this s) id resp err)%list).
Proof.
  intros OWN K I D code r. split.
  - intros IN. subst r.
    rewrite (ReConn_rejected_token ctx s id c' resp err K I D IN). cbn [fst snd].
    destruct (Wrap_some err (rejectionMsg id resp err)) as [e ->].
    repeat split. now exists e.
  - intros E. subst r.
    rewrite (ReConn_rejected_kicked ctx s id c' resp err OWN K I D E). cbn [fst snd].
    destruct (Wrap_some err (rejectionMsg id resp err)) as [e ->].
    repeat split. now exists e.
Qed.

(** C2. Called while [loginStatus] is [TokenFailedKickedOffline],
    [ReConn] returns [(false, false, err)] with [err] not nil, and
    among the calls it makes there is no [OnConnecting] and no dial. *)
Theorem ReConn_kicked_offline_aborts ctx s :
  loginStatus (this s) = TokenFailedKickedOffline constant ->
  let r := ReConn constant SvrConf Wrap ctx s in
  (exists e, fst r = Returns (false, false, Some e)) /\
  exists made : list (Call MsgData),
    calls (snd r) = (calls s ++ made)%list /\
    ~ In OnConnecting made /\
    forall url header, ~ In (ConnDial url header) made.
Proof.
  intros K r. subst r. rewrite (ReConn_refused ctx s K). cbn [fst snd].
  destruct (Wrap_some (errors_New "don't re conn") "TokenFailedKickedOffline")
    as [e ->].
  split; [now exists e|].
  exists (closing (this s)). split; [reflexivity|].
  unfold closing. destruct (LongConn.IsNil (conn (this s))); cbn;
    split; try intros url header; intros IN;
    repeat (destruct IN as [IN|IN]; try discriminate IN); exact IN.
Qed.

(** C4. When the dial succeeds, [ReConn] returns [(true, false, nil)],
    its last call is [OnConnectSuccess], [loginStatus] is
    [LoginSuccess], and [tokenErrCode] is 0 whatever it was before. *)
Theorem ReConn_success ctx s id c' resp :
  loginStatus (this s) <> TokenFailedKickedOffline constant ->
  operationID ctx = Some id ->
  dial SvrConf (this s) id = (c', (resp, None)) ->
  let r := ReConn constant SvrConf Wrap ctx s in
  fst r = Returns (true, false, None) /\
  calls (snd r) =
    (calls s ++ closing (this s)
       ++ [OnConnecting;
           ConnDial (dialURL SvrConf (this s) id) (dialHeader (this s));
           OnConnectSuccess])%list /\
  loginStatus (this (snd r)) = LoginSuccess constant /\
  tokenErrCode (this (snd r)) = 0.
Proof.
  intros K I D r. subst r. rewrite (ReConn_connected ctx s id c' resp K I D).
  repeat split.
Qed.

(** C9. When the server rejects the dial with a status code that is
    none of the eight, [ReConn] calls [OnConnectFailed] twice and no
    more: first with the status code (narrowed to [int32]) and the
    diagnostic message, then, as its last call, with 1001; and it
    returns [(true, false, err)] with [err] not nil. *)
Theorem ReConn_unrecognized_code_fails_twice ctx s id c' resp err :
  loginStatus (this s) <> TokenFailedKickedOffline constant ->
  operationID ctx = Some id ->
  dial SvrConf (this s) id = (c', (Some resp, Some err)) ->
  ~ In (int32 (StatusCode resp)) (recognized constant) ->
  let r := ReConn constant SvrConf Wrap ctx s in
  (exists e, fst r = Returns (true, false, Some e)) /\
  exists before : list (Call MsgData),
    calls (snd r) =
      (calls s ++ before
         ++ [OnConnectFailed (int32 (StatusCode resp)) (rejectionMsg id resp err);
             OnConnectFailed 1001 (Error err ++ " operationID " ++ id)])%list /\
    forall errCode errMsg, ~ In (OnConnectFailed errCode errMsg) before.
Proof.
  intros K I D OUT r. subst r. rewrite (ReConn_rejected_other ctx s id c' resp err K I D OUT).
  cbn [fst snd]. destruct (Wrap_some err (Error err ++ " operationID " ++ id)) as [e ->].
  split; [now exists e|].
  exists (closing (this s)
            ++ [OnConnecting;
                ConnDial (dialURL SvrConf (this s) id) (dialHeader (this s))])%list.
  split.
  - unfold rejectedCalls. rewrite <- !app_assoc. reflexivity.
  - intros errCode errMsg IN. apply in_app_or in IN.
    unfold closing in IN. destruct (LongConn.IsNil (conn (this s))); cbn in IN;
      intuition discriminate.
Qed.

(** C10. A call that stops at the [TokenFailedKickedOffline] guard
    returns with a false first component, to say that there is to be
    no retry, and leaves [tokenErrCode] at 0 whatever it was before, so
    that [IsInterruptReconnection] is false right after it. *)
Theorem ReConn_kicked_offline_clears_interrupt ctx s :
  loginStatus (this s) = TokenFailedKickedOffline constant ->
  let r := ReConn constant SvrConf Wrap ctx s in
  (exists e, fst r = Returns (false, false, e)) /\
  tokenErrCode (this (snd r)) = 0 /\
  IsInterruptReconnection (this (snd r)) = false.
Proof.
  intros K r. subst r. rewrite (ReConn_refused ctx s K). cbn [fst snd].
  repeat split. eexists; reflexivity.
Qed.

(** C3. Of the calls that a [ReConn] call makes, the pushes of a
    signal are these. If the dial fails with no response: with a
    channel, two pushes on it, [MsgSyncBegin] then [MsgSyncFailed],
    each with the request ID of [ctx] and no message; with a nil
    channel, none. In every other case (the guard, a successful dial, a
    rejection by the server, a context without its request ID):
    none. *)
Theorem ReConn_sync_signals ctx s :
  exists made : list (Call MsgData),
    calls (snd (ReConn constant SvrConf Wrap ctx s)) = (calls s ++ made)%list /\
    (forall id err,
        DialUnanswered constant SvrConf ctx (this s) id err ->
        pushes made =
          match ConversationCh (this s) with
          | Some ch =>
              [(ch, {| MsgList := []; OperationID := id;
                       SyncFlag := MsgSyncBegin constant |});
               (ch, {| MsgList := []; OperationID := id;
                       SyncFlag := MsgSyncFailed constant |})]
          | None => []
          end) /\
    ((forall id err, ~ DialUnanswered constant SvrConf ctx (this s) id err) ->
     pushes made = []).
Proof.
  destruct (Z.eq_dec (loginStatus (this s)) (TokenFailedKickedOffline constant))
    as [K|K].
  { rewrite (ReConn_refused ctx s K). cbn [snd calls].
    exists (closing (this s)). split; [reflexivity|]. split.
    - intros id err [NK _]. contradiction.
    - intros _. apply pushes_closing. }
  destruct (operationID ctx) as [id|] eqn:I.
  2:{ destruct (ReConn_no_operationID ctx s K I) as [reason ->]. cbn [snd calls].
      eexists. split; [reflexivity|].
      rewrite pushes_app, pushes_closing. split.
      - intros id err [_ [I' _]]. congruence.
      - reflexivity. }
  destruct (dial SvrConf (this s) id) as [c' [resp [err|]]] eqn:D.
  2:{ rewrite (ReConn_connected ctx s id c' resp K I D). cbn [snd calls].
      eexists. split; [reflexivity|].
      rewrite pushes_app, pushes_closing. split.
      - intros id' err' [_ [I' D']].
        assert (id' = id) by congruence. subst id'.
        rewrite D in D'. discriminate D'.
      - reflexivity. }
  destruct resp as [resp|].
  - destruct (ReConn_rejected_pushes ctx s id c' resp err K I D)
      as [made [E P]].
    exists made. split; [exact E|]. split.
    + intros id' err' [_ [I' D']].
      assert (id' = id) by congruence. subst id'.
      rewrite D in D'. discriminate D'.
    + intros _. exact P.
  - rewrite (ReConn_unanswered ctx s id c' err K I D). cbn [snd calls].
    eexists. split; [reflexivity|].
    rewrite !pushes_app, pushes_closing. split.
    + intros id' err' [_ [I' _]].
      assert (id' = id) by congruence. subst id'.
      destruct (ConversationCh (this s)); reflexivity.
    + intros NO. exfalso. apply (NO id err).
      repeat split; [exact K | exact I | rewrite D; reflexivity].
Qed.

(** ** More on [ReConn]: every path at once *)

(** A call of [ReConn] takes one of five paths: the guard, the panic
    on a context without request ID, a successful dial, a dial left
    unanswered, a dial rejected by the server; a rejection ends in one
    of three ways, by the status code. *)
Lemma ReConn_paths ctx s :
  let u := this s in
  (loginStatus u = TokenFailedKickedOffline constant /\
   ReConn constant SvrConf Wrap ctx s =
     (Returns (false, false,
               Wrap (Some (errors_New "don't re conn")) "TokenFailedKickedOffline"),
      {| this := prepared u; calls := calls s ++ closing u |}))
  \/
  (loginStatus u <> TokenFailedKickedOffline constant /\
   operationID ctx = None /\
   exists reason,
     ReConn constant SvrConf Wrap ctx s =
       (Panics reason,
        {| this := prepared u; calls := calls s ++ closing u ++ [OnConnecting] |}))
  \/
  (loginStatus u <> TokenFailedKickedOffline constant /\
   exists id c' resp,
     operationID ctx = Some id /\
     dial SvrConf u id = (c', (resp, None)) /\
     ReConn constant SvrConf Wrap ctx s =
       (Returns (true, false, None),
        {| this := with_loginStatus (LoginSuccess constant) (with_conn c' (prepared u));
           calls := calls s ++ closing u
                      ++ [OnConnecting;
                          ConnDial (dialURL SvrConf u id) (dialHeader u);
                          OnConnectSuccess] |}))
  \/
  (loginStatus u <> TokenFailedKickedOffline constant /\
   exists id c' err,
     operationID ctx = Some id /\
     dial SvrConf u id = (c', (None, Some err)) /\
     ReConn constant SvrConf Wrap ctx s =
       (Returns (true, false, Wrap (Some err) (Error err ++ " operationID " ++ id)),
        {| this := with_loginStatus (LoginFailed constant) (with_conn c' (prepared u));
           calls := calls s ++ closing u
                      ++ [OnConnecting;
                          ConnDial (dialURL SvrConf u id) (dialHeader u);
                          OnConnectFailed 1001 (Error err ++ " operationID " ++ id)]
                      ++ match ConversationCh u with
                         | Some ch =>
                             [ChanSend ch (syncSignal id (MsgSyncBegin constant));
                              ChanSend ch (syncSignal id (MsgSyncFailed constant))]
                         | None => []
                         end |}))
  \/
  (loginStatus u <> TokenFailedKickedOffline constant /\
   exists id c' resp err,
     operationID ctx = Some id /\
     dial SvrConf u id = (c', (Some resp, Some err)) /\
     exists retry kicked message tok tail,
       ReConn constant SvrConf Wrap ctx s =
         (Returns (retry, kicked, Wrap (Some err) message),
          {| this := with_tokenErrCode tok
                       (with_loginStatus (LoginFailed constant)
                          (with_conn c' (prepared u)));
             calls := calls s ++ rejectedCalls SvrConf u id resp err ++ tail |}) /\
       ((retry = false /\ kicked = false /\
         In tok (tokenFailures constant) /\
         tail = (if tok =? ErrTokenExpired constant then [OnUserTokenExpired] else []))
        \/
        (retry = false /\ kicked = true /\
         tok = ErrTokenKicked constant /\ tail = [])
        \/
        (retry = true /\ kicked = false /\
         tok = 0 /\ ~ In (int32 (StatusCode resp)) (recognized constant) /\
         tail = [OnConnectFailed 1001 (Error err ++ " operationID " ++ id)]))).
Proof.
  intros u. subst u.
  destruct (Z.eq_dec (loginStatus (this s)) (TokenFailedKickedOffline constant))
    as [K|K].
  { left. split; [exact K | exact (ReConn_refused ctx s K)]. }
  right.
  destruct (operationID ctx) as [id|] eqn:I.
  2:{ left. split; [exact K|]. split; [reflexivity|].
      exact (ReConn_no_operationID ctx s K I). }
  right.
  destruct (dial SvrConf (this s) id) as [c' [resp [err|]]] eqn:D.
  2:{ left. split; [exact K|]. exists id, c', resp.
      split; [reflexivity|]. split; [exact D|].
      exact (ReConn_connected ctx s id c' resp K I D). }
  right. destruct resp as [resp|].
  2:{ left. split; [exact K|]. exists id, c', err.
      split; [reflexivity|]. split; [exact D|].
      exact (ReConn_unanswered ctx s id c' err K I D). }
  right. split; [exact K|]. exists id, c', resp, err.
  split; [reflexivity|]. split; [exact D|].
  set (code := int32 (StatusCode resp)).
  destruct (in_dec Z.eq_dec code (tokenFailures constant)) as [IN|OUT].
  { exists false, false, (rejectionMsg id resp err), code.
    eexists. split.
    - exact (ReConn_rejected_token ctx s id c' resp err K I D IN).
    - left. repeat split. exact IN. }
  destruct (Z.eq_dec code (ErrTokenKicked constant)) as [E|NE].
  { exists false, true, (rejectionMsg id resp err), (ErrTokenKicked constant), [].
    split.
    - rewrite app_nil_r. apply ReConn_rejected_kicked; try assumption.
      rewrite <- E. exact OUT.
    - right. left. repeat split. }
  exists true, false, (Error err ++ " operationID " ++ id), 0.
  eexists. split.
  - rewrite (ReConn_rejected_other ctx s id c' resp err K I D).
    + reflexivity.
    + unfold recognized. intros IN. apply in_app_or in IN.
      destruct IN as [IN|[IN|[]]]; [exact (OUT IN) | exact (NE (eq_sym IN))].
  - right. right. repeat split.
    unfold recognized. intros IN. apply in_app_or in IN.
    destruct IN as [IN|[IN|[]]]; [exact (OUT IN) | exact (NE (eq_sym IN))].
Qed.

Ltac by_path ctx s :=
  let P := fresh "P" in
  pose proof (ReConn_paths ctx s) as P; cbv zeta in P;
  destruct P as
    [ [K E]
    | [ [K [I [reason E]]]
      | [ [K [id [c' [resp [I [D E]]]]]]
        | [ [K [id [c' [err [I [D E]]]]]]
          | [K [id [c' [resp [err [I [D [retry' [kicked' [message [tok [tail [E V]]]]]]]]]]]]] ] ] ] ].

(** The fields of the state, without touching the strings. *)
Ltac look :=
  unfold prepared;
  cbn [fst snd this calls conn loginStatus tokenErrCode token loginUserID
       IsCompression ConversationCh encoder compressor
       with_conn with_loginStatus with_tokenErrCode].

Lemma dials_app (l1 l2 : list (Call MsgData)) :
  dials (l1 ++ l2) = (dials l1 ++ dials l2)%list.
Proof.
  induction l1 as [|c l1 IH]; [reflexivity|].
  destruct c; cbn; rewrite IH; reflexivity.
Qed.

Lemma notifications_app (l1 l2 : list (Call MsgData)) :
  notifications (l1 ++ l2) = (notifications l1 ++ notifications l2)%list.
Proof.
  induction l1 as [|c l1 IH]; [reflexivity|].
  destruct c; cbn; rewrite IH; reflexivity.
Qed.

Lemma notifications_closing u : notifications (closing (MsgData := MsgData) u) = [].
Proof.
  unfold closing. destruct (LongConn.IsNil (conn u)); reflexivity.
Qed.

(** X1. The two flags that [ReConn] returns are never both true: a
    call that reports a kick never asks for a retry. *)
Theorem ReConn_kick_excludes_retry ctx s retry kicked e :
  fst (ReConn constant SvrConf Wrap ctx s) = Returns (retry, kicked, e) ->
  kicked = true -> retry = false.
Proof.
  intros R. by_path ctx s; rewrite E in R; cbn [fst] in R;
    try discriminate R; inversion R; subst; try discriminate.
  destruct V as [V|[V|V]]; intuition congruence.
Qed.

(** X2. [ReConn] returns a nil error only when the dial succeeded:
    then it asks for a retry, reports no kick, has [OnConnectSuccess]
    as its last call and leaves [loginStatus] at [LoginSuccess] and
    [tokenErrCode] at 0. *)
Theorem ReConn_nil_error_means_connected ctx s retry kicked :
  let r := ReConn constant SvrConf Wrap ctx s in
  fst r = Returns (retry, kicked, None) ->
  retry = true /\ kicked = false /\
  loginStatus (this (snd r)) = LoginSuccess constant /\
  tokenErrCode (this (snd r)) = 0 /\
  exists before : list (Call MsgData),
    calls (snd r) = (calls s ++ before ++ [OnConnectSuccess])%list.
Proof.
  intros r R. subst r. by_path ctx s; rewrite E in *; cbn [fst] in R;
    try discriminate R; inversion R; subst;
    try match goal with
        | W : Wrap (Some _) _ = None |- _ => now apply Wrap_error in W
        end.
  look. repeat split.
  exists (closing (this s)
            ++ [OnConnecting;
                ConnDial (dialURL SvrConf (this s) id) (dialHeader (this s))])%list.
  rewrite <- !app_assoc. reflexivity.
Qed.

(** X3. On a manager that is not kicked offline, and with the eight
    status codes different from 0, [IsInterruptReconnection] after a
    [ReConn] that returns is the negation of its retry flag. *)
Theorem ReConn_interrupt_iff_no_retry ctx s retry kicked e :
  ~ In 0 (recognized constant) ->
  loginStatus (this s) <> TokenFailedKickedOffline constant ->
  let r := ReConn constant SvrConf Wrap ctx s in
  fst r = Returns (retry, kicked, e) ->
  IsInterruptReconnection (this (snd r)) = negb retry.
Proof.
  intros NZ NK r R. subst r. by_path ctx s; rewrite E in *; cbn [fst] in R;
    try discriminate R; try contradiction; inversion R; subst;
    unfold IsInterruptReconnection; look; try reflexivity.
  assert (tok <> 0 -> (if negb (tok =? 0) then true else false) = true) as NZT.
  { intros T. apply Z.eqb_neq in T. rewrite T. reflexivity. }
  unfold recognized in NZ.
  destruct V as [[-> [_ [IN _]]]|[[-> [_ [-> _]]]|[-> [_ [-> _]]]]].
  - apply NZT. intros ->. apply NZ, in_or_app. left. exact IN.
  - apply NZT. intros T. apply NZ, in_or_app. right. left. exact T.
  - reflexivity.
Qed.

(** X4. On a manager that is not kicked offline, a [ReConn] that
    returns an error leaves [loginStatus] at [LoginFailed]: also when
    the server answered with the kick code. *)
Theorem ReConn_error_means_LoginFailed ctx s retry kicked e :
  loginStatus (this s) <> TokenFailedKickedOffline constant ->
  let r := ReConn constant SvrConf Wrap ctx s in
  fst r = Returns (retry, kicked, Some e) ->
  loginStatus (this (snd r)) = LoginFailed constant.
Proof.
  intros NK r R. subst r. by_path ctx s; rewrite E in *; cbn [fst] in R;
    try discriminate R; try contradiction; reflexivity.
Qed.

(** X5. The guard is terminal. A [ReConn] on a manager that is kicked
    offline leaves it kicked offline, so that a second call, with any
    context, returns the same refusal; over the two calls the listener
    is told nothing and nothing is dialled: the only calls are
    [Close]. *)
Theorem ReConn_kicked_offline_is_terminal ctx ctx' s :
  loginStatus (this s) = TokenFailedKickedOffline constant ->
  let r1 := ReConn constant SvrConf Wrap ctx s in
  let r2 := ReConn constant SvrConf Wrap ctx' (snd r1) in
  loginStatus (this (snd r1)) = TokenFailedKickedOffline constant /\
  fst r2 = fst r1 /\
  loginStatus (this (snd r2)) = TokenFailedKickedOffline constant /\
  exists made : list (Call MsgData),
    calls (snd r2) = (calls s ++ made)%list /\
    Forall (fun c => c = ConnClose) made.
Proof.
  intros K r1 r2. subst r1 r2.
  rewrite (ReConn_refused ctx s K). cbn [snd fst].
  set (s1 := {| this := prepared (this s); calls := calls s ++ closing (this s) |}).
  assert (loginStatus (this s1) = TokenFailedKickedOffline constant) as K1
    by exact K.
  rewrite (ReConn_refused ctx' s1 K1). cbn [snd fst].
  repeat split; try exact K.
  exists (closing (this s) ++ closing (this s1))%list. split.
  - subst s1. cbn [calls]. rewrite app_assoc. reflexivity.
  - apply Forall_app. split; unfold closing;
      match goal with |- context [if ?b then _ else _] => destruct b end;
      repeat constructor.
Qed.

(** X6. [ReConn] never puts the manager in the kicked-offline state:
    with [LoginFailed] and [LoginSuccess] different from
    [TokenFailedKickedOffline], a manager that is not kicked offline
    before the call is not kicked offline after it, however the call
    ends. *)
Theorem ReConn_never_kicks_offline ctx s :
  LoginFailed constant <> TokenFailedKickedOffline constant ->
  LoginSuccess constant <> TokenFailedKickedOffline constant ->
  loginStatus (this s) <> TokenFailedKickedOffline constant ->
  loginStatus (this (snd (ReConn constant SvrConf Wrap ctx s)))
    <> TokenFailedKickedOffline constant.
Proof.
  intros F S NK. by_path ctx s; rewrite E; look; assumption.
Qed.

(** X7. Whatever the path, [ReConn] first closes the connection that
    is held, if any, and closes nothing afterwards; and it dials at
    most once, at the target built from the manager and the request ID
    of the context, with the compression header of the manager. *)
Theorem ReConn_closes_first_dials_once ctx s :
  exists rest : list (Call MsgData),
    calls (snd (ReConn constant SvrConf Wrap ctx s)) =
      (calls s ++ closing (this s) ++ rest)%list /\
    ~ In ConnClose rest /\
    (dials rest = [] \/
     exists id, operationID ctx = Some id /\
                dials rest = [(dialURL SvrConf (this s) id, dialHeader (this s))]).
Proof.
  by_path ctx s; rewrite E; cbn [snd calls].
  - exists []. rewrite app_nil_r. repeat split; [intros [] | now left].
  - exists [OnConnecting]. repeat split; [|now left].
    intros [F|[]]; discriminate F.
  - eexists. repeat split; [|right; exists id; split; [exact I | reflexivity]].
    cbn. intuition discriminate.
  - eexists. repeat split.
    + destruct (ConversationCh (this s)); cbn; intuition discriminate.
    + right. exists id. split; [exact I|].
      destruct (ConversationCh (this s)); reflexivity.
  - unfold rejectedCalls. rewrite <- !app_assoc.
    eexists. repeat split.
    + destruct V as [[_ [_ [_ ->]]]|[[_ [_ [_ ->]]]|[_ [_ [_ [_ ->]]]]]];
        try destruct (tok =? ErrTokenExpired constant);
        cbn; intuition discriminate.
    + right. exists id. split; [exact I|].
      destruct V as [[_ [_ [_ ->]]]|[[_ [_ [_ ->]]]|[_ [_ [_ [_ ->]]]]]];
        try destruct (tok =? ErrTokenExpired constant); reflexivity.
Qed.

(** X8. A dial that fails with no response: [ReConn] returns
    [(true, false, err)] with [err] not nil, tells the listener of
    one failure, with code 1001 and the message made of the dial
    error and the request ID, right after the dial, and leaves
    [loginStatus] at [LoginFailed] and [tokenErrCode] at 0. *)
Theorem ReConn_unanswered_is_transient ctx s id c' err :
  loginStatus (this s) <> TokenFailedKickedOffline constant ->
  operationID ctx = Some id ->
  dial SvrConf (this s) id = (c', (None, Some err)) ->
  let r := ReConn constant SvrConf Wrap ctx s in
  (exists e, fst r = Returns (true, false, Some e)) /\
  loginStatus (this (snd r)) = LoginFailed constant /\
  tokenErrCode (this (snd r)) = 0 /\
  exists made : list (Call MsgData),
    calls (snd r) = (calls s ++ made)%list /\
    notifications made =
      [OnConnecting; OnConnectFailed 1001 (Error err ++ " operationID " ++ id)].
Proof.
  intros K I D r. subst r. rewrite (ReConn_unanswered ctx s id c' err K I D).
  cbn [fst snd].
  destruct (Wrap_some err (Error err ++ " operationID " ++ id)) as [e ->].
  split; [now exists e|]. repeat split.
  eexists. split; [reflexivity|].
  rewrite !notifications_app, notifications_closing.
  destruct (ConversationCh (this s)); reflexivity.
Qed.

(** X9. What the listener hears of one [ReConn]: nothing, or
    [OnConnecting] first and once; and [OnConnectSuccess], when it
    comes, comes alone after it: never with an [OnConnectFailed] or
    an [OnUserTokenExpired] in the same call. *)
Theorem ReConn_listener_protocol ctx s :
  exists made : list (Call MsgData),
    calls (snd (ReConn constant SvrConf Wrap ctx s)) = (calls s ++ made)%list /\
    (notifications made = [] \/
     exists outcome,
       notifications made = OnConnecting :: outcome /\
       ~ In OnConnecting outcome /\
       (In OnConnectSuccess outcome -> outcome = [OnConnectSuccess])).
Proof.
  by_path ctx s; rewrite E; cbn [snd calls];
    eexists; (split; [reflexivity|]);
    unfold rejectedCalls;
    rewrite ?notifications_app, ?notifications_closing.
  - now left.
  - right. exists []. cbn. intuition.
  - right. exists [OnConnectSuccess]. cbn. intuition discriminate.
  - right. exists [OnConnectFailed 1001 (Error err ++ " operationID " ++ id)].
    split.
    + destruct (ConversationCh (this s)); reflexivity.
    + cbn. intuition discriminate.
  - right. cbn [notifications app]. eexists. split; [reflexivity|].
    destruct V as [[_ [_ [_ ->]]]|[[_ [_ [_ ->]]]|[_ [_ [_ [_ ->]]]]]];
      try destruct (tok =? ErrTokenExpired constant);
      cbn; intuition discriminate.
Qed.

(** X10. After any [ReConn], [tokenErrCode] is 0 or one of the eight
    status codes, whatever it was before: a stale code never
    survives a call. *)
Theorem ReConn_tokenErrCode_range ctx s :
  let code := tokenErrCode (this (snd (ReConn constant SvrConf Wrap ctx s))) in
  code = 0 \/ In code (recognized constant).
Proof.
  by_path ctx s; rewrite E; look; try (now left).
  unfold recognized.
  destruct V as [[_ [_ [IN _]]]|[[_ [_ [-> _]]]|[_ [_ [-> _]]]]].
  - right. apply in_or_app. now left.
  - right. apply in_or_app. right. now left.
  - now left.
Qed.

(** X11. [ReConn] assigns three fields and no other: the token, the
    user ID, the compression flag, the channel, the encoder and the
    compressor of the manager are after the call what they were
    before it. *)
Theorem ReConn_keeps_session ctx s :
  let u := this s in
  let u' := this (snd (ReConn constant SvrConf Wrap ctx s)) in
  u' = with_tokenErrCode (tokenErrCode u')
         (with_loginStatus (loginStatus u') (with_conn (conn u') u)).
Proof.
  by_path ctx s; rewrite E; look; destruct (this s); reflexivity.
Qed.

Lemma dials_closing u : dials (closing (MsgData := MsgData) u) = [].
Proof.
  unfold closing. destruct (LongConn.IsNil (conn u)); reflexivity.
Qed.

(** X12. Resetting the state re-opens the guard: on any manager, also
    one that is kicked offline, after [SetLoginStatus] with a state
    that is not [TokenFailedKickedOffline], [LoginStatus] returns that
    state and a [ReConn] with a request ID tells the listener
    [OnConnecting] and dials, once. *)
Theorem SetLoginStatus_reopens_ReConn ctx s requestID loginState :
  loginState <> TokenFailedKickedOffline constant ->
  operationID ctx = Some requestID ->
  let s1 := snd (SetLoginStatus (MsgData := MsgData) loginState s) in
  fst (LoginStatus s1) = Returns loginState /\
  exists made : list (Call MsgData),
    calls (snd (ReConn constant SvrConf Wrap ctx s1)) = (calls s ++ made)%list /\
    In OnConnecting made /\
    dials made = [(dialURL SvrConf (this s) requestID, dialHeader (this s))].
Proof.
  intros NK RI s1. split; [reflexivity|].
  assert (loginStatus (this s1) <> TokenFailedKickedOffline constant) as K1
    by exact NK.
  by_path ctx s1; try contradiction; try congruence;
    assert (id = requestID) by congruence; subst id;
    rewrite E; cbn [snd calls]; unfold rejectedCalls; rewrite <- ?app_assoc;
    eexists; (split; [reflexivity|]);
    (split; [apply in_or_app; right; now left|]);
    rewrite !dials_app, dials_closing.
  - reflexivity.
  - destruct (ConversationCh (this s1)); reflexivity.
  - destruct V as [[_ [_ [_ ->]]]|[[_ [_ [_ ->]]]|[_ [_ [_ [_ ->]]]]]];
      try destruct (tok =? ErrTokenExpired constant); reflexivity.
Qed.


(** X21. [CloseConn] does not stand in the way of a reconnection, and
    it does not spare it the closing: after a [CloseConn] on a held
    connection, [ReConn] calls [Close] a second time when the
    transport still holds its connection object, and not when the
    transport dropped it; nothing else is closed. *)
Theorem CloseConn_then_ReConn_closes_again ctx s :
  LongConn.IsNil (conn (this s)) = false ->
  let closed := fst (LongConn.Close (conn (this s))) in
  let s1 := snd (CloseConn (MsgData := MsgData) Wrap s) in
  exists rest : list (Call MsgData),
    calls (snd (ReConn constant SvrConf Wrap ctx s1)) =
      (calls s ++ ConnClose
         :: (if LongConn.IsNil closed then [] else [ConnClose]) ++ rest)%list /\
    ~ In ConnClose rest.
Proof.
  intros HELD closed s1.
  assert (s1 = {| this := with_conn closed (this s);
                  calls := calls s ++ [ConnClose] |}) as S1.
  { subst s1 closed. unfold CloseConn, bind, load, on_conn, ret.
    cbn. rewrite HELD. cbn.
    destruct (LongConn.Close (conn (this s))). reflexivity. }
  assert (closing (MsgData := MsgData) (this s1) =
          if LongConn.IsNil closed then [] else [ConnClose]) as CL.
  { rewrite S1. reflexivity. }
  assert (calls s1 = (calls s ++ [ConnClose])%list) as LOG
    by (rewrite S1; reflexivity).
  by_path ctx s1; rewrite E; cbn [snd calls]; unfold rejectedCalls;
    rewrite <- ?app_assoc, CL, LOG, <- ?app_assoc; cbn [app];
    [ exists []; rewrite app_nil_r; split; [reflexivity|]
    | eexists; (split; [reflexivity|]).. ].
  - intros [].
  - cbn. intuition discriminate.
  - cbn. intuition discriminate.
  - destruct (ConversationCh (this s1)); cbn; intuition discriminate.
  - destruct V as [[_ [_ [_ ->]]]|[[_ [_ [_ ->]]]|[_ [_ [_ [_ ->]]]]]];
      try destruct (tok =? ErrTokenExpired constant);
      cbn; intuition discriminate.
Qed.

End Reconnection.

(** ** Closing and outbound framing *)

Section Framing.

Variables GeneralWsReq MsgData C : Type.
Context `{LongConn.t C}.
Variable constant : Constants.
Variable Wrap : option error -> string -> option error.

Implicit Types (s : State GeneralWsReq MsgData C) (msg : GeneralWsReq).

Ltac run_method :=
  unfold CloseConn, writeBinaryMsg, SetWriteTimeout, bind, store, load, call,
    on_conn, ret.

(** [frames] over a call log that grows. *)
Lemma frames_app (l1 l2 : list (Call MsgData)) :
  frames (l1 ++ l2) = (frames l1 ++ frames l2)%list.
Proof.
  induction l1 as [|c l1 IH]; [reflexivity|].
  destruct c; cbn; rewrite IH; reflexivity.
Qed.

(** C5, as the code has it. With a transport handle, [CloseConn] calls
    its [Close], once, and returns the error of that call (nil or not)
    through [utils.Wrap]; it assigns no field, so that [conn] is the
    transport as its own [Close] leaves it and is not cleared by the
    manager. Without a handle it returns nil and calls nothing. Either
    way [loginStatus] is what it was. *)
Theorem CloseConn_closes_and_keeps_handle s :
  let r := CloseConn Wrap s in
  (LongConn.IsNil (conn (this s)) = false ->
     fst r = Returns (Wrap (snd (LongConn.Close (conn (this s)))) "") /\
     snd r = {| this := with_conn (fst (LongConn.Close (conn (this s)))) (this s);
                calls := calls s ++ [ConnClose] |}) /\
  (LongConn.IsNil (conn (this s)) = true -> fst r = Returns None /\ snd r = s) /\
  loginStatus (this (snd r)) = loginStatus (this s).
Proof.
  run_method. destruct s as [u log]. cbn.
  destruct (LongConn.IsNil (conn u)); cbn.
  - repeat split; discriminate.
  - destruct (LongConn.Close (conn u)) as [c' e]. cbn. repeat split; discriminate.
Qed.

(** C6, as the code has it. On a manager with a transport handle and a
    request whose encoding is longer than [MaxTotalMsgLen], the one
    call that [writeBinaryMsg] makes is the arming of the write
    deadline: no frame is written. When the arming succeeds, the
    result is the error ["msg too long"] wrapped with the decimal
    length of the encoding. *)
Theorem writeBinaryMsg_oversized msg s data :
  Encode (encoder (this s)) msg = (data, None) ->
  LongConn.IsNil (conn (this s)) = false ->
  len data > MaxTotalMsgLen constant ->
  let r := writeBinaryMsg constant Wrap msg s in
  exists made : list (Call MsgData),
    calls (snd r) = (calls s ++ made)%list /\
    made = [ConnSetWriteTimeout writeTimeoutSeconds] /\
    frames made = [] /\
    (snd (LongConn.SetWriteTimeout writeTimeoutSeconds (conn (this s))) = None ->
     fst r = Returns (Wrap (Some (errors_New "msg too long"))
                        (IntToString (len data)))).
Proof.
  intros E N L. run_method. destruct s as [u log]. cbn in *.
  rewrite E. cbn. rewrite N. cbn.
  destruct (LongConn.SetWriteTimeout writeTimeoutSeconds (conn u)) as [c' [e|]]; cbn.
  - eexists. repeat split. discriminate.
  - apply Z.gt_lt, Z.gtb_lt in L. rewrite L. cbn. eexists. repeat split.
Qed.

(** When every step before it succeeds, the frame is written and the
    result is that of the write, through [utils.Wrap]. *)
Lemma writeBinaryMsg_sent msg s data :
  Encode (encoder (this s)) msg = (data, None) ->
  LongConn.IsNil (conn (this s)) = false ->
  snd (LongConn.SetWriteTimeout writeTimeoutSeconds (conn (this s))) = None ->
  len data <= MaxTotalMsgLen constant ->
  (IsCompression (this s) = true ->
   snd (Compress (compressor (this s)) data) = None) ->
  let payload := if IsCompression (this s)
                 then fst (Compress (compressor (this s)) data) else data in
  let written :=
    LongConn.WriteMessage websocket_BinaryMessage payload
      (fst (LongConn.SetWriteTimeout writeTimeoutSeconds (conn (this s)))) in
  writeBinaryMsg constant Wrap msg s =
    (Returns (Wrap (snd written) ""),
     {| this := with_conn (fst written) (this s);
        calls := calls s
                   ++ [ConnSetWriteTimeout writeTimeoutSeconds;
                       ConnWriteMessage websocket_BinaryMessage payload] |}).
Proof.
  intros E N A L OK. run_method. destruct s as [u log]. destruct u. cbn in *.
  rewrite E. cbn. rewrite N. cbn.
  destruct (LongConn.SetWriteTimeout writeTimeoutSeconds conn0) as [c1 a].
  cbn in *. subst a.
  destruct (Z.gtb_spec (len data) (MaxTotalMsgLen constant)) as [G|_]; [lia|].
  cbn. destruct IsCompression0; cbn.
  - destruct (Compress compressor0 data) as [compressData e]. cbn in *.
    rewrite (OK eq_refl). cbn.
    destruct (LongConn.WriteMessage websocket_BinaryMessage compressData c1).
    cbn. rewrite <- app_assoc. reflexivity.
  - destruct (LongConn.WriteMessage websocket_BinaryMessage data c1).
    cbn. rewrite <- app_assoc. reflexivity.
Qed.

(** [utils.Wrap] gives an error when it is given one. *)
Hypothesis Wrap_error : forall err message, Wrap (Some err) message <> None.

(** C7. When [writeBinaryMsg] returns nil, the request was encoded,
    the length of the encoding passed the check against
    [MaxTotalMsgLen], with compression on or off alike, and exactly
    one frame was written: a binary frame that holds the compressed
    encoding when [IsCompression] is set, and the encoding itself when
    it is not. *)
Theorem writeBinaryMsg_success_frame msg s :
  let r := writeBinaryMsg constant Wrap msg s in
  fst r = Returns None ->
  exists (data : list byte) (made : list (Call MsgData)),
    Encode (encoder (this s)) msg = (data, None) /\
    len data <= MaxTotalMsgLen constant /\
    calls (snd r) = (calls s ++ made)%list /\
    frames made =
      [(websocket_BinaryMessage,
        if IsCompression (this s)
        then fst (Compress (compressor (this s)) data)
        else data)].
Proof.
  run_method. destruct s as [u log]. destruct u. cbn.
  destruct (Encode encoder0 msg) as [data [e|]]; cbn.
  { intros R. injection R as R. now apply Wrap_error in R. }
  destruct (LongConn.IsNil conn0); cbn.
  { intros R. injection R as R. now apply Wrap_error in R. }
  destruct (LongConn.SetWriteTimeout writeTimeoutSeconds conn0) as [c1 [e|]]; cbn.
  { intros R. injection R as R. now apply Wrap_error in R. }
  destruct (len data >? MaxTotalMsgLen constant) eqn:L; cbn.
  { intros R. injection R as R. now apply Wrap_error in R. }
  assert (len data <= MaxTotalMsgLen constant) as LE.
  { destruct (Z.gtb_spec (len data) (MaxTotalMsgLen constant)); [discriminate | lia]. }
  destruct IsCompression0; cbn.
  - destruct (Compress compressor0 data) as [compressData [e|]] eqn:EC; cbn.
    { intros R. injection R as R. now apply Wrap_error in R. }
    destruct (LongConn.WriteMessage websocket_BinaryMessage compressData c1) as [c2 e2].
    cbn. intros _. exists data. eexists. rewrite <- app_assoc, ?EC.
    repeat split; exact LE.
  - destruct (LongConn.WriteMessage websocket_BinaryMessage data c1) as [c2 e2].
    cbn. intros _. exists data. eexists. rewrite <- app_assoc.
    repeat split; exact LE.
Qed.

(** ** More on the send paths *)

(** The steps of [writeBinaryMsg], one after the other. *)
Ltac send_steps msg :=
  run_method;
  match goal with s : State _ _ _ |- _ => destruct s as [u log]; destruct u end;
  cbn;
  match goal with
  | |- context [Encode ?enc msg] =>
      destruct (Encode enc msg) as [data [e|]] eqn:EN
  end; cbn;
  [ | match goal with
      | |- context [LongConn.IsNil ?c] => destruct (LongConn.IsNil c) eqn:NIL
      end; cbn;
      [ | match goal with
          | |- context [LongConn.SetWriteTimeout ?t ?c] =>
              destruct (LongConn.SetWriteTimeout t c) as [c1 [e|]] eqn:ARM
          end; cbn;
          [ | match goal with
              | |- context [?a >? ?b] => destruct (a >? b) eqn:L
              end; cbn;
              [ | match goal with b : bool |- _ => destruct b end; cbn;
                  [ match goal with
                    | |- context [Compress ?cmp ?d] =>
                        destruct (Compress cmp d) as [compressData [e|]] eqn:CO
                    end; cbn;
                    [ | match goal with
                        | |- context [LongConn.WriteMessage ?t ?p ?c] =>
                            destruct (LongConn.WriteMessage t p c)
                              as [c2 e2] eqn:WR
                        end; cbn ]
                  | match goal with
                    | |- context [LongConn.WriteMessage ?t ?p ?c] =>
                        destruct (LongConn.WriteMessage t p c)
                          as [c2 e2] eqn:WR
                    end; cbn ] ] ] ] ].

(** X14. The calls of [writeBinaryMsg] are none, or the arming of the
    30 second write deadline alone, or that arming followed by the
    write of one binary frame: the encoding, compressed when
    [IsCompression] is set, of a request whose encoding is no longer
    than [MaxTotalMsgLen]. Nothing is closed or dialled, and the
    listener and the channel are left alone. *)
Theorem writeBinaryMsg_calls msg s :
  exists made : list (Call MsgData),
    calls (snd (writeBinaryMsg constant Wrap msg s)) = (calls s ++ made)%list /\
    (made = [] \/
     made = [ConnSetWriteTimeout writeTimeoutSeconds] \/
     exists data,
       Encode (encoder (this s)) msg = (data, None) /\
       len data <= MaxTotalMsgLen constant /\
       made = [ConnSetWriteTimeout writeTimeoutSeconds;
               ConnWriteMessage websocket_BinaryMessage
                 (if IsCompression (this s)
                  then fst (Compress (compressor (this s)) data)
                  else data)]).
Proof.
  send_steps msg;
    try (exists []; rewrite app_nil_r; split; [reflexivity | now left]);
    try (eexists; split; [reflexivity | right; now left]).
  - eexists. rewrite <- app_assoc. split; [reflexivity|].
    right. right. exists data. rewrite CO.
    repeat split. destruct (Z.gtb_spec (len data) (MaxTotalMsgLen constant));
      [discriminate | lia].
  - eexists. rewrite <- app_assoc. split; [reflexivity|].
    right. right. exists data.
    repeat split. destruct (Z.gtb_spec (len data) (MaxTotalMsgLen constant));
      [discriminate | lia].
Qed.

(** X15. [writeBinaryMsg] leaves the manager and the call log as they
    are exactly when the encoding fails or no connection is held. The
    error is then the encoder's, wrapped as ["Encode error"], and
    otherwise ["conn==nil"]: a failed encoding is reported before the
    missing connection. *)
Theorem writeBinaryMsg_untouched_iff msg s :
  let r := writeBinaryMsg constant Wrap msg s in
  let encoded := Encode (encoder (this s)) msg in
  (snd r = s <->
   snd encoded <> None \/ LongConn.IsNil (conn (this s)) = true) /\
  (forall e, snd encoded = Some e ->
             fst r = Returns (Wrap (Some e) "Encode error")) /\
  (snd encoded = None -> LongConn.IsNil (conn (this s)) = true ->
   fst r = Returns (Wrap (Some (errors_New "conn==nil")) "")).
Proof.
  assert (forall (l : list (Call MsgData)) c, (l ++ [c])%list <> l) as GROWS.
  { intros l c G. apply (f_equal (@List.length _)) in G.
    rewrite length_app in G. cbn in G. lia. }
  assert (forall (l : list (Call MsgData)) c d, ((l ++ [c]) ++ [d])%list <> l)
    as GROWS2.
  { intros l c d G. apply (f_equal (@List.length _)) in G.
    rewrite !length_app in G. cbn in G. lia. }
  send_steps msg; (split; [split|split]);
    try (intros; reflexivity);
    try (intros; discriminate);
    try (intros; left; discriminate);
    try (intros; right; reflexivity);
    try (intros G; exfalso; injection G as _ G;
         solve [apply GROWS in G; exact G | apply GROWS2 in G; exact G]);
    try (intros [G|G]; [now contradiction G | discriminate G]);
    try (intros a G; injection G as <-; reflexivity).
Qed.

(** X16. Under a wrapper that keeps nil nil and errors errors,
    [writeBinaryMsg] returns nil exactly when every step succeeds: the
    encoding, the connection check, the arming of the deadline, the
    length check, the compression when it is on, and the write of the
    frame on the transport as the arming left it. *)
Theorem writeBinaryMsg_nil_iff msg s :
  Wrap None "" = None ->
  let data := fst (Encode (encoder (this s)) msg) in
  let armed := LongConn.SetWriteTimeout writeTimeoutSeconds (conn (this s)) in
  let payload := if IsCompression (this s)
                 then fst (Compress (compressor (this s)) data) else data in
  fst (writeBinaryMsg constant Wrap msg s) = Returns None <->
  snd (Encode (encoder (this s)) msg) = None /\
  LongConn.IsNil (conn (this s)) = false /\
  snd armed = None /\
  len data <= MaxTotalMsgLen constant /\
  (IsCompression (this s) = true ->
   snd (Compress (compressor (this s)) data) = None) /\
  snd (LongConn.WriteMessage websocket_BinaryMessage payload (fst armed)) = None.
Proof.
  intros NIL0.
  assert (forall e m, Returns (Wrap (Some e) m) <> Returns None) as ERR.
  { intros e m G. injection G as G. now apply Wrap_error in G. }
  send_steps msg; rewrite ?CO, ?WR; cbn [fst snd];
    (split; [intros R | intros (A1 & A2 & A3 & A4 & A5 & A6)]);
    try (now apply ERR in R);
    try discriminate;
    try (specialize (A5 eq_refl); discriminate A5).
  - exfalso. apply Z.gtb_lt in L. cbn in A4. lia.
  - destruct e2 as [e2|]; [now apply ERR in R|].
    repeat split. destruct (Z.gtb_spec (len data) (MaxTotalMsgLen constant));
      [discriminate | cbn; lia].
  - cbn in A6. subst e2. rewrite NIL0. reflexivity.
  - destruct e2 as [e2|]; [now apply ERR in R|].
    repeat split; try discriminate.
    destruct (Z.gtb_spec (len data) (MaxTotalMsgLen constant));
      [discriminate | cbn; lia].
  - cbn in A6. subst e2. rewrite NIL0. reflexivity.
Qed.

Ltac ping_steps :=
  unfold SendPingMsg; run_method;
  match goal with s : State _ _ _ |- _ => destruct s as [u log]; destruct u end;
  cbn;
  match goal with
  | |- context [LongConn.IsNil ?c] => destruct (LongConn.IsNil c) eqn:NIL
  end; cbn;
  [ | match goal with
      | |- context [LongConn.SetWriteTimeout ?t ?c] =>
          destruct (LongConn.SetWriteTimeout t c) as [c1 [e|]] eqn:ARM
      end; cbn;
      [ | match goal with
          | |- context [LongConn.WriteMessage ?t ?p ?c] =>
              destruct (LongConn.WriteMessage t p c) as [c2 [e2|]] eqn:WR
          end; cbn ] ].

(** X17. [SendPingMsg] returns nil exactly when a connection is held,
    the arming of the write deadline succeeds and so does the write of
    the ping on the transport as the arming left it. *)
Theorem SendPingMsg_nil_iff s :
  let armed := LongConn.SetWriteTimeout writeTimeoutSeconds (conn (this s)) in
  fst (SendPingMsg (MsgData := MsgData) Wrap s) = Returns None <->
  LongConn.IsNil (conn (this s)) = false /\
  snd armed = None /\
  snd (LongConn.WriteMessage websocket_PingMessage ping (fst armed)) = None.
Proof.
  assert (forall e m, Returns (Wrap (Some e) m) <> Returns None) as ERR.
  { intros e m G. injection G as G. now apply Wrap_error in G. }
  ping_steps; rewrite ?WR; cbn [fst snd];
    (split; [intros R | intros (A1 & A2 & A3)]);
    try (now apply ERR in R); try discriminate; repeat split.
Qed.

(** X18. The calls of [SendPingMsg]: none without a connection; with
    one, the arming of the 30 second write deadline, followed, when
    the arming succeeds, by the write of one ping frame that holds
    ["try ping"]. *)
Theorem SendPingMsg_calls s :
  calls (snd (SendPingMsg (MsgData := MsgData) Wrap s)) =
    (calls s ++
       if LongConn.IsNil (conn (this s)) then []
       else ConnSetWriteTimeout writeTimeoutSeconds
              :: match snd (LongConn.SetWriteTimeout writeTimeoutSeconds
                              (conn (this s))) with
                 | None => [ConnWriteMessage websocket_PingMessage ping]
                 | Some _ => []
                 end)%list.
Proof.
  ping_steps; rewrite ?app_nil_r, <- ?app_assoc; reflexivity.
Qed.

(** X19. The send paths assign no field of the manager: after
    [writeBinaryMsg] and after [SendPingMsg] the manager is what it
    was, but for the transport as its own methods leave it; the login
    state and the token error code are untouched, and so is what
    [IsInterruptReconnection] says. *)
Theorem send_paths_keep_manager msg s :
  let after_send := this (snd (writeBinaryMsg constant Wrap msg s)) in
  let after_ping := this (snd (SendPingMsg (MsgData := MsgData) Wrap s)) in
  after_send = with_conn (conn after_send) (this s) /\
  after_ping = with_conn (conn after_ping) (this s) /\
  IsInterruptReconnection after_send = IsInterruptReconnection (this s) /\
  IsInterruptReconnection after_ping = IsInterruptReconnection (this s).
Proof.
  split; [|split; [|split]].
  - send_steps msg; reflexivity.
  - ping_steps; reflexivity.
  - send_steps msg; reflexivity.
  - ping_steps; reflexivity.
Qed.

End Framing.

(** ** Runs on the test doubles *)

Import Double.

Lemma wrap_error (err : error) (message : string) :
  wrap (Some err) message <> None.
Proof. discriminate. Qed.

Lemma timeout_classification_run :
  IsWriteTimeout (Some (errors_New "write tcp: i/o timeout")) = Returns true /\
  IsFatalError (Some (errors_New "write tcp: i/o timeout")) = Returns false.
Proof. split; reflexivity. Qed.

(** C1 at work: an expired token, then a kick. *)
Lemma ReConn_classifies_token_failures_witness :
  (let s := fresh (manager (transport true (rejected 701)) 101 true (Some 7%nat) 0) in
   let r := ReConn constants svrConf wrap ctx1 s in
   (exists e, fst r = Returns (false, false, Some e)) /\
   tokenErrCode (this (snd r)) = 701 /\
   calls (snd r) =
     [ConnClose; OnConnecting;
      ConnDial "ws://im:10001?sendID=u1&token=tok&platformID=5&operationID=op1"
        [("compression", ["gzip"])];
      OnConnectFailed 701 "args err operationID op1bad handshake";
      OnUserTokenExpired]) /\
  (let s := fresh (manager (transport false (rejected 706)) 0 false None 0) in
   let r := ReConn constants svrConf wrap ctx1 s in
   (exists e, fst r = Returns (false, true, Some e)) /\
   tokenErrCode (this (snd r)) = 706 /\
   calls (snd r) =
     [OnConnecting;
      ConnDial "ws://im:10001?sendID=u1&token=tok&platformID=5&operationID=op1" [];
      OnConnectFailed 706 "args err operationID op1bad handshake"]).
Proof.
  split.
  - apply (proj1 (@ReConn_classifies_token_failures
                    (list byte) unit Transport Transport_LongConn constants svrConf wrap wrap_error
                    ctx1 (fresh (manager (transport true (rejected 701)) 101 true (Some 7%nat) 0))
                    "op1" (transport true (rejected 701))
                    {| StatusCode := 701; Header_Get := fun _ => "args err" |}
                    (errors_New "bad handshake")
                    ltac:(vm_compute; intuition discriminate)
                    ltac:(vm_compute; discriminate)
                    eq_refl eq_refl)).
    vm_compute. left. reflexivity.
  - apply (proj2 (@ReConn_classifies_token_failures
                    (list byte) unit Transport Transport_LongConn constants svrConf wrap wrap_error
                    ctx1 (fresh (manager (transport false (rejected 706)) 0 false None 0))
                    "op1" (transport false (rejected 706))
                    {| StatusCode := 706; Header_Get := fun _ => "args err" |}
                    (errors_New "bad handshake")
                    ltac:(vm_compute; intuition discriminate)
                    ltac:(vm_compute; discriminate)
                    eq_refl eq_refl)).
    reflexivity.
Defined.

(** C2 at work: kicked offline with a connection still held. *)
Lemma ReConn_kicked_offline_aborts_witness :
  let s := fresh (manager (transport true (None, None)) 706 false (Some 7%nat) 0) in
  let r := ReConn constants svrConf wrap ctx1 s in
  loginStatus (this s) = TokenFailedKickedOffline constants /\
  (exists e, fst r = Returns (false, false, Some e)) /\
  exists made : list (Call unit),
    calls (snd r) = (calls s ++ made)%list /\
    ~ In OnConnecting made /\
    forall url header, ~ In (ConnDial url header) made.
Proof.
  split; [reflexivity|].
  apply (@ReConn_kicked_offline_aborts
           (list byte) unit Transport Transport_LongConn constants svrConf wrap wrap_error ctx1
           (fresh (manager (transport true (None, None)) 706 false (Some 7%nat) 0))
           eq_refl).
Defined.

(** C3 at work: the server cannot be reached and a channel is set. *)
Lemma ReConn_sync_signals_witness :
  let s := fresh (manager (transport false unreachable) 0 false (Some 7%nat) 0) in
  exists made : list (Call unit),
    calls (snd (ReConn constants svrConf wrap ctx1 s)) = (calls s ++ made)%list /\
    pushes made =
      [(7%nat, {| MsgList := []; OperationID := "op1"; SyncFlag := 1001 |});
       (7%nat, {| MsgList := []; OperationID := "op1"; SyncFlag := 1004 |})].
Proof.
  destruct (@ReConn_sync_signals
              (list byte) unit Transport Transport_LongConn constants svrConf wrap ctx1
              (fresh (manager (transport false unreachable) 0 false (Some 7%nat) 0)))
    as [made [E [P _]]].
  exists made. split; [exact E|].
  apply (P "op1" (errors_New "dial tcp: i/o timeout")).
  repeat split. vm_compute. discriminate.
Defined.

(** C4 at work: a token failure is on record and the dial succeeds. *)
Lemma ReConn_success_witness :
  let s := fresh (manager (transport false (None, None)) 103 false None 702) in
  let r := ReConn constants svrConf wrap ctx1 s in
  fst r = Returns (true, false, None) /\
  calls (snd r) =
    [OnConnecting;
     ConnDial "ws://im:10001?sendID=u1&token=tok&platformID=5&operationID=op1" [];
     OnConnectSuccess] /\
  loginStatus (this (snd r)) = 101 /\
  tokenErrCode (this (snd r)) = 0.
Proof.
  apply (@ReConn_success
           (list byte) unit Transport Transport_LongConn constants svrConf wrap ctx1
           (fresh (manager (transport false (None, None)) 103 false None 702))
           "op1" (transport true (None, None)) None
           ltac:(vm_compute; discriminate) eq_refl eq_refl).
Defined.

(** C9 at work: the server answers 500. *)
Lemma ReConn_unrecognized_code_fails_twice_witness :
  let s := fresh (manager (transport false (rejected 500)) 0 false (Some 7%nat) 0) in
  let r := ReConn constants svrConf wrap ctx1 s in
  (exists e, fst r = Returns (true, false, Some e)) /\
  exists before : list (Call unit),
    calls (snd r) =
      (calls s ++ before
         ++ [OnConnectFailed 500 "args err operationID op1bad handshake";
             OnConnectFailed 1001 "bad handshake operationID op1"])%list /\
    forall errCode errMsg, ~ In (OnConnectFailed errCode errMsg) before.
Proof.
  apply (@ReConn_unrecognized_code_fails_twice
           (list byte) unit Transport Transport_LongConn constants svrConf wrap wrap_error ctx1
           (fresh (manager (transport false (rejected 500)) 0 false (Some 7%nat) 0))
           "op1" (transport false (rejected 500))
           {| StatusCode := 500; Header_Get := fun _ => "args err" |}
           (errors_New "bad handshake")
           ltac:(vm_compute; discriminate) eq_refl eq_refl
           ltac:(vm_compute; intuition discriminate)).
Defined.

(** C10 at work: kicked offline, with a token failure on record. *)
Lemma ReConn_kicked_offline_clears_interrupt_witness :
  let s := fresh (manager (transport false (None, None)) 706 false None 706) in
  let r := ReConn constants svrConf wrap ctx1 s in
  IsInterruptReconnection (this s) = true /\
  (exists e, fst r = Returns (false, false, e)) /\
  tokenErrCode (this (snd r)) = 0 /\
  IsInterruptReconnection (this (snd r)) = false.
Proof.
  split; [reflexivity|].
  apply (@ReConn_kicked_offline_clears_interrupt
           (list byte) unit Transport Transport_LongConn constants svrConf wrap ctx1
           (fresh (manager (transport false (None, None)) 706 false None 706))
           eq_refl).
Defined.

(** C5 at work: a connection is held and the login has succeeded. *)
Lemma CloseConn_closes_and_keeps_handle_witness :
  let s := fresh (manager (transport true (None, None)) 101 false None 0) in
  let r := CloseConn (MsgData := unit) wrap s in
  fst r = Returns None /\
  calls (snd r) = [ConnClose] /\
  loginStatus (this (snd r)) = 101.
Proof.
  pose proof (@CloseConn_closes_and_keeps_handle
                (list byte) unit Transport Transport_LongConn wrap
                (fresh (manager (transport true (None, None)) 101 false None 0)))
    as [HELD [_ STATUS]].
  destruct (HELD eq_refl) as [R S].
  split; [exact R|]. split; [rewrite S; reflexivity | exact STATUS].
Defined.

(** C5 as stated fails: the handle exists before [CloseConn], and it
    is not absent after it. *)
Lemma CloseConn_handle_not_cleared :
  let s := fresh (manager (transport true (None, None)) 101 false None 0) in
  let r := CloseConn (MsgData := unit) wrap s in
  LongConn.IsNil (conn (this s)) = false /\
  fst r = Returns None /\
  LongConn.IsNil (conn (this (snd r))) <> true.
Proof.
  repeat split. vm_compute. discriminate.
Qed.

(** C6 at work: five bytes against a limit of four. *)
Lemma writeBinaryMsg_oversized_witness :
  let s := fresh (manager (transport true (None, None)) 101 true None 0) in
  let r := writeBinaryMsg (MsgData := unit) constants wrap long s in
  exists made : list (Call unit),
    calls (snd r) = (calls s ++ made)%list /\
    frames made = [] /\
    fst r = Returns (Some (errors_New "5: msg too long")).
Proof.
  destruct (@writeBinaryMsg_oversized
              (list byte) unit Transport Transport_LongConn constants wrap long
              (fresh (manager (transport true (None, None)) 101 true None 0))
              long eq_refl eq_refl eq_refl)
    as [made [E [_ [F R]]]].
  exists made. split; [exact E|]. split; [exact F | exact (R eq_refl)].
Defined.

(** C6 as stated fails: the manager is connected and the encoding is
    over the limit, yet the error returned is that of the deadline,
    not the oversized-message one. *)
Lemma writeBinaryMsg_oversized_behind_deadline :
  let s := fresh (manager stuck 101 false None 0) in
  let r := writeBinaryMsg (MsgData := unit) constants wrap long s in
  LongConn.IsNil (conn (this s)) = false /\
  Encode (encoder (this s)) long = (long, None) /\
  len long > MaxTotalMsgLen constants /\
  fst r = Returns (Some (errors_New
                           "SetWriteTimeout: use of closed network connection")) /\
  fst r <> Returns (wrap (Some (errors_New "msg too long"))
                      (IntToString (len long))).
Proof.
  repeat split. vm_compute. discriminate.
Qed.

(** C7 at work: with and without compression. *)
Lemma writeBinaryMsg_success_frame_witness :
  (let s := fresh (manager (transport true (None, None)) 101 true None 0) in
   exists made : list (Call unit),
     calls (snd (writeBinaryMsg constants wrap short s)) = (calls s ++ made)%list /\
     frames made = [(2, Byte.x1f :: short)]) /\
  (let s := fresh (manager (transport true (None, None)) 101 false None 0) in
   exists made : list (Call unit),
     calls (snd (writeBinaryMsg constants wrap short s)) = (calls s ++ made)%list /\
     frames made = [(2, short)]).
Proof.
  split.
  - destruct (@writeBinaryMsg_success_frame
                (list byte) unit Transport Transport_LongConn constants wrap wrap_error short
                (fresh (manager (transport true (None, None)) 101 true None 0))
                eq_refl)
      as [data [made [E [_ [L F]]]]].
    injection E as <-. exists made. split; [exact L | exact F].
  - destruct (@writeBinaryMsg_success_frame
                (list byte) unit Transport Transport_LongConn constants wrap wrap_error short
                (fresh (manager (transport true (None, None)) 101 false None 0))
                eq_refl)
      as [data [made [E [_ [L F]]]]].
    injection E as <-. exists made. split; [exact L | exact F].
Defined.

(** ** More on the error classification *)

Lemma append_assoc3 (a b c : string) : (a ++ b) ++ c = a ++ b ++ c.
Proof.
  induction a as [|x a IH]; [reflexivity|]. cbn. now rewrite IH.
Qed.

(** X20. The classification survives the wrapping of an error: when
    the description of an error is found inside the description of
    another, with anything before and after it, a timeout stays a
    timeout for the three predicates, and an error that is fatal once
    wrapped was fatal before. *)
Theorem timeout_survives_wrapping (e : error) (before after : string) :
  let wrapped := errors_New (before ++ Error e ++ after) in
  (IsReadTimeout (Some e) = Returns true ->
   IsReadTimeout (Some wrapped) = Returns true /\
   IsWriteTimeout (Some wrapped) = Returns true /\
   IsFatalError (Some wrapped) = Returns false) /\
  (IsFatalError (Some wrapped) = Returns true ->
   IsFatalError (Some e) = Returns true).
Proof.
  intros wrapped.
  assert (Contains (Error e) "timeout" = true ->
          Contains (Error wrapped) "timeout" = true) as UP.
  { intros T. apply Contains_spec in T. destruct T as [l [r T]].
    apply Contains_spec. exists (before ++ l), (r ++ after).
    subst wrapped. cbn [Error]. rewrite T.
    rewrite !append_assoc3. reflexivity. }
  unfold IsReadTimeout, IsWriteTimeout, IsFatalError, describe in *.
  destruct (Contains (Error e) "timeout") eqn:T.
  - rewrite (UP eq_refl). split; [repeat split | discriminate].
  - split; [discriminate | reflexivity].
Qed.


(** ** More runs on the test doubles *)

(** X1 at work: the server answers with the kick code. *)
Lemma ReConn_kick_excludes_retry_witness :
  let s := fresh (manager (transport false (rejected 706)) 0 false None 0) in
  fst (ReConn constants svrConf wrap ctx1 s) =
    Returns (false, true,
             Some (errors_New
                     "args err operationID op1bad handshake: bad handshake")) /\
  false = false.
Proof.
  split; [reflexivity|].
  apply (@ReConn_kick_excludes_retry
           (list byte) unit Transport Transport_LongConn constants svrConf wrap
           ctx1 (fresh (manager (transport false (rejected 706)) 0 false None 0))
           false true _ eq_refl eq_refl).
Defined.

(** X2 at work: the dial succeeds. *)
Lemma ReConn_nil_error_means_connected_witness :
  let s := fresh (manager (transport false (None, None)) 103 false None 702) in
  let r := ReConn constants svrConf wrap ctx1 s in
  fst r = Returns (true, false, None) /\
  loginStatus (this (snd r)) = 101 /\
  tokenErrCode (this (snd r)) = 0.
Proof.
  split; [reflexivity|].
  destruct (@ReConn_nil_error_means_connected
              (list byte) unit Transport Transport_LongConn constants svrConf
              wrap wrap_error ctx1
              (fresh (manager (transport false (None, None)) 103 false None 702))
              true false eq_refl)
    as [_ [_ [L [T _]]]].
  split; [exact L | exact T].
Defined.

(** X3 at work: an invalid token stops the retries, and a server that
    cannot be reached does not. *)
Lemma ReConn_interrupt_iff_no_retry_witness :
  (let s := fresh (manager (transport false (rejected 702)) 0 false None 0) in
   IsInterruptReconnection (this (snd (ReConn constants svrConf wrap ctx1 s)))
   = true) /\
  (let s := fresh (manager (transport false unreachable) 0 false None 0) in
   IsInterruptReconnection (this (snd (ReConn constants svrConf wrap ctx1 s)))
   = false).
Proof.
  split.
  - apply (@ReConn_interrupt_iff_no_retry
             (list byte) unit Transport Transport_LongConn constants svrConf wrap
             ctx1 (fresh (manager (transport false (rejected 702)) 0 false None 0))
             false false _
             ltac:(vm_compute; intuition discriminate)
             ltac:(vm_compute; discriminate)
             eq_refl).
  - apply (@ReConn_interrupt_iff_no_retry
             (list byte) unit Transport Transport_LongConn constants svrConf wrap
             ctx1 (fresh (manager (transport false unreachable) 0 false None 0))
             true false _
             ltac:(vm_compute; intuition discriminate)
             ltac:(vm_compute; discriminate)
             eq_refl).
Defined.

(** X4 at work: after the kick code the state is [LoginFailed]. *)
Lemma ReConn_error_means_LoginFailed_witness :
  let s := fresh (manager (transport false (rejected 706)) 101 false None 0) in
  loginStatus (this (snd (ReConn constants svrConf wrap ctx1 s))) = 103.
Proof.
  apply (@ReConn_error_means_LoginFailed
           (list byte) unit Transport Transport_LongConn constants svrConf wrap
           ctx1 (fresh (manager (transport false (rejected 706)) 101 false None 0))
           false true _
           ltac:(vm_compute; discriminate) eq_refl).
Defined.

(** X5 at work: two calls on a manager that is kicked offline and
    holds a connection. *)
Lemma ReConn_kicked_offline_is_terminal_witness :
  let s := fresh (manager (transport true (None, None)) 706 false (Some 7%nat) 0) in
  let r1 := ReConn constants svrConf wrap ctx1 s in
  let r2 := ReConn constants svrConf wrap {| operationID := None |} (snd r1) in
  loginStatus (this (snd r1)) = 706 /\
  fst r2 = fst r1 /\
  loginStatus (this (snd r2)) = 706 /\
  exists made : list (Call unit),
    calls (snd r2) = (calls s ++ made)%list /\
    Forall (fun c => c = ConnClose) made.
Proof.
  apply (@ReConn_kicked_offline_is_terminal
           (list byte) unit Transport Transport_LongConn constants svrConf wrap
           ctx1 {| operationID := None |}
           (fresh (manager (transport true (None, None)) 706 false (Some 7%nat) 0))
           eq_refl).
Defined.

(** X6 at work: the kick code does not kick the manager offline. *)
Lemma ReConn_never_kicks_offline_witness :
  let s := fresh (manager (transport false (rejected 706)) 101 false None 0) in
  loginStatus (this (snd (ReConn constants svrConf wrap ctx1 s))) <> 706.
Proof.
  apply (@ReConn_never_kicks_offline
           (list byte) unit Transport Transport_LongConn constants svrConf wrap
           ctx1 (fresh (manager (transport false (rejected 706)) 101 false None 0))
           ltac:(vm_compute; discriminate)
           ltac:(vm_compute; discriminate)
           ltac:(vm_compute; discriminate)).
Defined.

(** X8 at work: the server cannot be reached. *)
Lemma ReConn_unanswered_is_transient_witness :
  let s := fresh (manager (transport false unreachable) 101 false (Some 7%nat) 705) in
  let r := ReConn constants svrConf wrap ctx1 s in
  (exists e, fst r = Returns (true, false, Some e)) /\
  loginStatus (this (snd r)) = 103 /\
  tokenErrCode (this (snd r)) = 0 /\
  exists made : list (Call unit),
    calls (snd r) = (calls s ++ made)%list /\
    notifications made =
      [OnConnecting; OnConnectFailed 1001 "dial tcp: i/o timeout operationID op1"].
Proof.
  apply (@ReConn_unanswered_is_transient
           (list byte) unit Transport Transport_LongConn constants svrConf wrap
           wrap_error ctx1
           (fresh (manager (transport false unreachable) 101 false (Some 7%nat) 705))
           "op1" (transport false unreachable)
           (errors_New "dial tcp: i/o timeout")
           ltac:(vm_compute; discriminate) eq_refl eq_refl).
Defined.

(** X12 at work: the state of a manager that is kicked offline is set
    back to 0. *)
Lemma SetLoginStatus_reopens_ReConn_witness :
  let s := fresh (manager (transport false (None, None)) 706 false None 0) in
  let s1 := snd (SetLoginStatus 0 s) in
  fst (LoginStatus s1) = Returns 0 /\
  exists made : list (Call unit),
    calls (snd (ReConn constants svrConf wrap ctx1 s1)) = (calls s ++ made)%list /\
    In OnConnecting made /\
    dials made =
      [("ws://im:10001?sendID=u1&token=tok&platformID=5&operationID=op1", [])].
Proof.
  apply (@SetLoginStatus_reopens_ReConn
           (list byte) unit Transport Transport_LongConn constants svrConf wrap
           ctx1 (fresh (manager (transport false (None, None)) 706 false None 0))
           "op1" 0
           ltac:(vm_compute; discriminate) eq_refl).
Defined.


(** X16 at work: two bytes go out compressed. *)
Lemma writeBinaryMsg_nil_iff_witness :
  let s := fresh (manager (transport true (None, None)) 101 true None 0) in
  fst (writeBinaryMsg (MsgData := unit) constants wrap short s) = Returns None.
Proof.
  apply (proj2 (@writeBinaryMsg_nil_iff
                  (list byte) unit Transport Transport_LongConn constants wrap
                  wrap_error short
                  (fresh (manager (transport true (None, None)) 101 true None 0))
                  eq_refl)).
  repeat split. vm_compute. discriminate.
Defined.

(** X17 at work: a ping on a connection, and one on a transport whose
    deadline cannot be armed. *)
Lemma SendPingMsg_nil_iff_witness :
  fst (SendPingMsg (MsgData := unit) wrap
         (fresh (manager (transport true (None, None)) 101 false None 0)))
  = Returns None /\
  fst (SendPingMsg (MsgData := unit) wrap (fresh (manager stuck 101 false None 0)))
  <> Returns None.
Proof.
  split.
  - apply (proj2 (@SendPingMsg_nil_iff
                    (list byte) unit Transport Transport_LongConn wrap wrap_error
                    (fresh (manager (transport true (None, None)) 101 false None 0)))).
    repeat split.
  - intros R.
    apply (proj1 (@SendPingMsg_nil_iff
                    (list byte) unit Transport Transport_LongConn wrap wrap_error
                    (fresh (manager stuck 101 false None 0)))) in R.
    destruct R as [_ [A _]]. discriminate A.
Defined.

(** X20 at work: a read timeout, wrapped. *)
Lemma timeout_survives_wrapping_witness :
  IsFatalError (Some (errors_New "recv: read tcp: i/o timeout (conn 3)"))
  = Returns false.
Proof.
  apply (proj1 (timeout_survives_wrapping
                  (errors_New "read tcp: i/o timeout") "recv: " " (conn 3)")).
  reflexivity.
Defined.

(** X15 at work: the encoder fails on a manager that holds a
    connection. *)
Lemma writeBinaryMsg_untouched_iff_witness :
  let r := writeBinaryMsg (MsgData := unit) constants wrap short (fresh mute) in
  snd r = fresh mute /\
  fst r = Returns (Some (errors_New "Encode error: gob: type not registered")).
Proof.
  destruct (@writeBinaryMsg_untouched_iff
              (list byte) unit Transport Transport_LongConn constants wrap
              short (fresh mute))
    as [[_ SAME] [ERR _]].
  split.
  - apply SAME. left. discriminate.
  - exact (ERR (errors_New "gob: type not registered") eq_refl).
Defined.

(** X21 at work: the scripted transport keeps its connection object,
    so it is closed by [CloseConn] and again by [ReConn]. *)
Lemma CloseConn_then_ReConn_closes_again_witness :
  let s := fresh (manager (transport true (None, None)) 101 false None 0) in
  let s1 := snd (CloseConn (MsgData := unit) wrap s) in
  exists rest : list (Call unit),
    calls (snd (ReConn constants svrConf wrap ctx1 s1)) =
      (ConnClose :: ConnClose :: rest)%list /\
    ~ In ConnClose rest.
Proof.
  apply (@CloseConn_then_ReConn_closes_again
           (list byte) unit Transport Transport_LongConn constants svrConf wrap
           ctx1 (fresh (manager (transport true (None, None)) 101 false None 0))
           eq_refl).
Defined.
